(** * Auto Form Fill: the orchestrator of [main.py]

    A shallow embedding of [load_json_file], [validate_template],
    [merge_data] and [main], and the properties of the template validator,
    the template resolution step, the data merger and the config loader.

    Python dictionaries are finite maps keyed by strings.  The two
    dictionaries that [merge_data] receives are objects of a store, so that
    copying and updating in place can be told apart.  What the program does
    to the outside (printing, opening files, calling the imported modules)
    is recorded in a trace; the answers of the outside are taken from a
    [World]. *)

From stdpp Require Import gmap strings list fin_maps.
From Stdlib Require Import PrimFloat.

#[local] Set Warnings "-register-all".
#[local] Open Scope string_scope.

(** ** Values *)

(** The values [json.load] can produce, which are also the values the
    orchestrator inspects. *)
Inductive value :=
| VNone
| VBool (b : bool)
| VInt (n : Z)
| VFloat (x : float)
| VStr (s : string)
| VList (l : list value)
| VDict (d : gmap string value).

(** [type(v).__name__], as it appears in the interpreter's messages. *)
Definition type_name (v : value) : string :=
  match v with
  | VNone => "NoneType"
  | VBool _ => "bool"
  | VInt _ => "int"
  | VFloat _ => "float"
  | VStr _ => "str"
  | VList _ => "list"
  | VDict _ => "dict"
  end.

(** ** Exceptions *)

(** The classes of [Exception] that the program raises or tells apart.
    [JSONDecodeError] is a subclass of [ValueError]; no handler of the
    program catches [ValueError], so the subclass relation is never asked. *)
Inductive exc_class :=
| FileNotFoundError
| ValueError
| JSONDecodeError
| TypeError
| AttributeError
| KeyError
| OtherException (name : string).

(** The text of an exception, [str(e)], kept as data: one constructor for
    each message the program builds, the interpreter's own messages, and
    [Text] for the messages of the imported modules and of the system. *)
Inductive message :=
| Text (s : string)
| JsonFileNotFound (file_path : string)
    (* f"JSON file not found: {file_path}" *)
| InvalidJson (file_path : string) (e : message)
    (* f"Invalid JSON in {file_path}: {e}" *)
| MissingFieldsKey
    (* "Template missing 'fields' key" *)
| FieldsNotList
    (* "Template 'fields' must be a list" *)
| FieldNotObject (i : nat)
    (* f"Field {i} must be a dictionary" *)
| FieldMissingName (i : nat)
    (* f"Field {i} missing 'name' key" *)
| FieldMissingBBox (i : nat)
    (* f"Field {i} missing 'pixel_bbox' key" *)
| NotIterable (ty : string)
    (* argument of type '{ty}' is not iterable *)
| BadIndex (ty : string)
    (* {ty} indices must be integers *)
| NotSubscriptable (ty : string)
    (* '{ty}' object is not subscriptable *)
| NoLen (ty : string)
    (* object of type '{ty}' has no len() *)
| NoAttribute (ty attr : string)
    (* '{ty}' object has no attribute '{attr}' *)
| MissingKey (key : string).

Record exn := Exc { exc_cls : exc_class; exc_msg : message }.

(** ** Results *)

(** How a call ends: it returns, it raises an [Exception], or it leaves the
    process through [sys.exit] ([SystemExit] is not an [Exception], so no
    handler of the program catches it).  [Wrong] is the model's own: a
    reference that is not in the store, which no Python program can hold. *)
Inductive res (A : Type) :=
| Ret (a : A)
| Raise (e : exn)
| Exit (code : Z)
| Wrong.
Arguments Ret {A} a.
Arguments Raise {A} e.
Arguments Exit {A} code.
Arguments Wrong {A}.

(** ** The store and the trace *)

Definition loc := nat.

(** A filled form, as [fill_form] hands it to [save_filled_form]. *)
Inductive artifact := FilledImage (handle : nat).

(** One constructor for each [print] of [main], with the values it formats.
    The two loops that print a dictionary entry by entry are one line each,
    carrying the dictionary. *)
Inductive line :=
| Starting
| Step1
| ErrImageNotFound (image : string)
| ErrTemplateNotFound (template : string)
| ErrDataNotFound (data : string)
| InputsValidated
| Step2
| AttemptingMatch
| TemplateMatched
| MatchingFailed (e : message)
| LoadingFromPath
| TemplateLoaded (n : nat)
| ErrTemplateLoad (e : message)
| Step3
| ExtractionCompleted (n : nat)
| ExtractedFields (shown : gmap string string)
| ErrExtraction (e : message)
| Step4
| LoadedOverrides (n : nat)
| OverrideValues (shown : gmap string value)
| ErrOverrideLoad (e : message)
| NoOverrideData
| DataMerged (n : nat)
| Step5
| FormFilled
| ErrFill (e : message)
| Step6
| SavedTo (output_path : string)
| ErrSave (e : message)
| Completed
| SummaryHeader
| SummaryImage (image : string)
| SummaryTemplate (template : string)
| SummaryFields (n : nat)
| SummaryOutput (output : string)
| SummaryOverrides (n : nat)
| FatalError (e : message).

(** What the program does to the outside, in the order it does it. *)
Inductive event :=
| Print (l : line)
| PathExists (path : string)
| Open (file_path : string)
| MatchTemplate (image : string)
| ExtractData (image : string) (template : value)
| FillForm (image : string) (template : value) (data : gmap string value)
| Mkdir (path : string)
| SaveFilledForm (filled_image : artifact) (output_path : string).

Record state := State {
  heap : gmap loc (gmap string value);
  trace : list event
}.

(** ** The outside *)

(** The answers of the file system and of the imported modules.
    [match_template] is [None] when the imported name is not callable. *)
Record World := {
  os_path_exists : string -> bool;
  open_read : string -> exn + string;
  json_load : string -> exn + value;
  match_template : option (string -> exn + value);
  extract_data_from_image : string -> value -> exn + gmap string string;
  fill_form : string -> value -> gmap string value -> exn + artifact;
  save_filled_form : artifact -> string -> exn + unit;
  path_parent : string -> string;
  path_str : string -> string;
  mkdir : string -> exn + unit
}.

(** The parsed command line. *)
Record Args := {
  image : string;
  template : string;
  output : string;
  data : option string;
  debug : bool
}.

(** ** The monad of the orchestrator *)

Definition M (A : Type) : Type := state -> res A * state.

Definition ret {A} (a : A) : M A := fun s => (Ret a, s).

Definition bind {A B} (m : M A) (k : A -> M B) : M B :=
  fun s =>
    match m s with
    | (Ret a, s') => k a s'
    | (Raise e, s') => (Raise e, s')
    | (Exit c, s') => (Exit c, s')
    | (Wrong, s') => (Wrong, s')
    end.

Declare Scope py_scope.
Delimit Scope py_scope with py.
Notation "x <- m ;; k" := (bind m (fun x => k))
  (at level 100, m at next level, right associativity) : py_scope.
Notation "m ;; k" := (bind m (fun _ => k))
  (at level 100, right associativity) : py_scope.
#[local] Open Scope py_scope.

Definition raise {A} (e : exn) : M A := fun s => (Raise e, s).

(** [sys.exit(code)] *)
Definition sys_exit {A} (code : Z) : M A := fun s => (Exit code, s).

(** Sequencing of pure results. *)
Definition and_then {A B} (r : res A) (k : A -> res B) : res B :=
  match r with
  | Ret a => k a
  | Raise e => Raise e
  | Exit c => Exit c
  | Wrong => Wrong
  end.

(** A pure result, as the result of a call. *)
Definition lift {A} (r : res A) : M A := fun s => (r, s).

Definition emit (ev : event) : M unit :=
  fun s => (Ret tt, State (heap s) (trace s ++ [ev])).

Definition print (l : line) : M unit := emit (Print l).

(** A call to the outside: recorded, then answered. *)
Definition call {A} (ev : event) (answer : exn + A) : M A :=
  emit ev ;;
  match answer with
  | inl e => raise e
  | inr a => ret a
  end.

(** [try: body except Exception as e: handler(e)] *)
Definition try_except {A} (body : M A) (handler : exn -> M A) : M A :=
  fun s =>
    match body s with
    | (Raise e, s') => handler e s'
    | other => other
    end.

(** A new object of the store. *)
Definition alloc (d : gmap string value) : M loc :=
  fun s =>
    let l := fresh (dom (heap s)) in
    (Ret l, State (<[l := d]> (heap s)) (trace s)).

Definition load (l : loc) : M (gmap string value) :=
  fun s =>
    match heap s !! l with
    | Some d => (Ret d, s)
    | None => (Wrong, s)
    end.

Definition store (l : loc) (d : gmap string value) : M unit :=
  fun s =>
    match heap s !! l with
    | Some _ => (Ret tt, State (<[l := d]> (heap s)) (trace s))
    | None => (Wrong, s)
    end.

(** ** Operations of the interpreter *)

(** [key in container], for a string [key]. *)
Definition py_contains (key : string) (container : value) : res bool :=
  match container with
  | VDict d => Ret (bool_decide (is_Some (d !! key)))
  | VList l =>
      Ret (existsb (fun v => match v with
                             | VStr s => bool_decide (s = key)
                             | _ => false
                             end) l)
  | VStr s =>
      Ret (match String.index 0 key s with Some _ => true | None => false end)
  | _ => Raise (Exc TypeError (NotIterable (type_name container)))
  end.

(** [container[key]], for a string [key]. *)
Definition py_getitem (container : value) (key : string) : res value :=
  match container with
  | VDict d =>
      match d !! key with
      | Some v => Ret v
      | None => Raise (Exc KeyError (MissingKey key))
      end
  | VList _ | VStr _ => Raise (Exc TypeError (BadIndex (type_name container)))
  | _ => Raise (Exc TypeError (NotSubscriptable (type_name container)))
  end.

(** [len(v)] *)
Definition py_len (v : value) : res nat :=
  match v with
  | VStr s => Ret (String.length s)
  | VList l => Ret (length l)
  | VDict d => Ret (size d)
  | _ => Raise (Exc TypeError (NoLen (type_name v)))
  end.

(** [v.items()] *)
Definition py_items (v : value) : res (gmap string value) :=
  match v with
  | VDict d => Ret d
  | _ => Raise (Exc AttributeError (NoAttribute (type_name v) "items"))
  end.

(** ** [load_json_file] *)

(** [open] and [json.load] are inside one [try]; the two handlers go by
    the class of what was raised, and anything else passes through. *)
Definition load_json_file (w : World) (file_path : string) : M value :=
  try_except
    (content <- call (Open file_path) (open_read w file_path) ;;
     lift (match json_load w content with
           | inl e => Raise e
           | inr v => Ret v
           end))
    (fun e =>
       match exc_cls e with
       | FileNotFoundError =>
           raise (Exc FileNotFoundError (JsonFileNotFound file_path))
       | JSONDecodeError =>
           raise (Exc ValueError (InvalidJson file_path (exc_msg e)))
       | _ => raise e
       end).

(** ** [validate_template] *)

(** The loop [for i, field in enumerate(template['fields'])], from index
    [i] on. *)
Fixpoint validate_fields (i : nat) (fields : list value) : res unit :=
  match fields with
  | [] => Ret tt
  | field :: rest =>
      match field with
      | VDict d =>
          if negb (bool_decide (is_Some (d !! "name"))) then
            Raise (Exc ValueError (FieldMissingName i))
          else if negb (bool_decide (is_Some (d !! "pixel_bbox"))) then
            Raise (Exc ValueError (FieldMissingBBox i))
          else validate_fields (S i) rest
      | _ => Raise (Exc ValueError (FieldNotObject i))
      end
  end.

Definition validate_template (template : value) : res unit :=
  match py_contains "fields" template with
  | Ret false => Raise (Exc ValueError MissingFieldsKey)
  | Ret true =>
      match py_getitem template "fields" with
      | Ret (VList fields) => validate_fields 0 fields
      | Ret _ => Raise (Exc ValueError FieldsNotList)
      | Raise e => Raise e
      | Exit c => Exit c
      | Wrong => Wrong
      end
  | Raise e => Raise e
  | Exit c => Exit c
  | Wrong => Wrong
  end.

(** ** [merge_data] *)

(** [d.copy()]: a new object with the entries of [d]. *)
Definition dict_copy (d : loc) : M loc :=
  entries <- load d ;;
  alloc entries.

(** [d.update(other)]: the entries of [other] are written into the object
    [d], over the entries [d] has under the same keys. *)
Definition dict_update (d other : loc) : M unit :=
  new <- load other ;;
  old <- load d ;;
  store d (new ∪ old).

(** The truth value of [override_data]: neither [None] nor empty. *)
Definition truthy_dict (override_data : option loc) : M bool :=
  match override_data with
  | None => ret false
  | Some o =>
      entries <- load o ;;
      ret (negb (bool_decide (entries = ∅)))
  end.

Definition merge_data (extracted_data : loc) (override_data : option loc)
  : M loc :=
  merged <- dict_copy extracted_data ;;
  t <- truthy_dict override_data ;;
  (if t then
     match override_data with
     | Some o => dict_update merged o
     | None => ret tt
     end
   else ret tt) ;;
  ret merged.

(** ** [main] *)

(** [value[:50] + "..." if len(value) > 50 else value] *)
Definition display_value (value : string) : string :=
  if bool_decide (50 < String.length value)%nat
  then String.substring 0 50 value +:+ "..."
  else value.

(** Step 1: the three [os.path.exists] tests.  The data path is tested
    only when [args.data] is given and not empty. *)
Definition validate_inputs (w : World) (args : Args) : M unit :=
  print Step1 ;;
  image_exists <-
    call (PathExists (image args)) (inr (os_path_exists w (image args))) ;;
  (if negb image_exists
   then print (ErrImageNotFound (image args)) ;; sys_exit 1
   else ret tt) ;;
  template_exists <-
    call (PathExists (template args)) (inr (os_path_exists w (template args))) ;;
  (if negb template_exists
   then print (ErrTemplateNotFound (template args)) ;; sys_exit 1
   else ret tt) ;;
  (match data args with
   | Some (String a p) =>
       let path := String a p in
       data_exists <- call (PathExists path) (inr (os_path_exists w path)) ;;
       if negb data_exists
       then print (ErrDataNotFound path) ;; sys_exit 1
       else ret tt
   | _ => ret tt
   end) ;;
  print InputsValidated.

(** Step 2: the template, from [match_template] or from the template
    path, then validated.  The outer handler ends the run. *)
Definition load_template (w : World) (args : Args) : M value :=
  print Step2 ;;
  try_except
    (template <-
       match match_template w with
       | Some matcher =>
           print AttemptingMatch ;;
           try_except
             (matched <-
                call (MatchTemplate (image args)) (matcher (image args)) ;;
              print TemplateMatched ;;
              ret matched)
             (fun e =>
                print (MatchingFailed (exc_msg e)) ;;
                print LoadingFromPath ;;
                load_json_file w (template args))
       | None =>
           print LoadingFromPath ;;
           load_json_file w (template args)
       end ;;
     lift (validate_template template) ;;
     n <- lift (and_then (py_getitem template "fields") py_len) ;;
     print (TemplateLoaded n) ;;
     ret template)
    (fun e => print (ErrTemplateLoad (exc_msg e)) ;; sys_exit 1).

(** Step 3: the extraction.  The dictionary it returns becomes an object
    of the store. *)
Definition extract_data (w : World) (args : Args) (template : value)
  : M loc :=
  print Step3 ;;
  try_except
    (extracted <-
       call (ExtractData (image args) template)
            (extract_data_from_image w (image args) template) ;;
     extracted_data <- alloc (VStr <$> extracted) ;;
     print (ExtractionCompleted (size extracted)) ;;
     print (ExtractedFields (display_value <$> extracted)) ;;
     ret extracted_data)
    (fun e => print (ErrExtraction (exc_msg e)) ;; sys_exit 1).

(** Step 4, first half: the overrides, when a data path is given.  What
    the file holds must have a length and [items()]; only a dictionary
    passes, and it becomes an object of the store. *)
Definition load_overrides (w : World) (args : Args) : M (option loc) :=
  print Step4 ;;
  match data args with
  | Some (String a p) =>
      try_except
        (loaded <- load_json_file w (String a p) ;;
         n <- lift (py_len loaded) ;;
         print (LoadedOverrides n) ;;
         entries <- lift (py_items loaded) ;;
         print (OverrideValues entries) ;;
         override_data <- alloc entries ;;
         ret (Some override_data))
        (fun e => print (ErrOverrideLoad (exc_msg e)) ;; sys_exit 1)
  | _ =>
      print NoOverrideData ;;
      ret None
  end.

(** Step 5: the filling. *)
Definition fill (w : World) (args : Args) (template : value)
    (final_data : loc) : M artifact :=
  print Step5 ;;
  try_except
    (entries <- load final_data ;;
     filled_image <-
       call (FillForm (image args) template entries)
            (fill_form w (image args) template entries) ;;
     print FormFilled ;;
     ret filled_image)
    (fun e => print (ErrFill (exc_msg e)) ;; sys_exit 1).

(** Step 6: the parent directory of the output, then the saving. *)
Definition save (w : World) (args : Args) (filled_image : artifact)
  : M unit :=
  print Step6 ;;
  try_except
    (let output_path := output args in
     call (Mkdir (path_parent w output_path))
          (mkdir w (path_parent w output_path)) ;;
     call (SaveFilledForm filled_image (path_str w output_path))
          (save_filled_form w filled_image (path_str w output_path)) ;;
     print (SavedTo (path_str w output_path)))
    (fun e => print (ErrSave (exc_msg e)) ;; sys_exit 1).

Definition main (w : World) (args : Args) : M unit :=
  let template_path := template args in
  print Starting ;;
  validate_inputs w args ;;
  template <- load_template w args ;;
  extracted_data <- extract_data w args template ;;
  override_data <- load_overrides w args ;;
  final_data <- merge_data extracted_data override_data ;;
  final <- load final_data ;;
  print (DataMerged (size final)) ;;
  filled_image <- fill w args template final_data ;;
  save w args filled_image ;;
  print Completed ;;
  print SummaryHeader ;;
  print (SummaryImage (image args)) ;;
  print (SummaryTemplate template_path) ;;
  print (SummaryFields (size final)) ;;
  print (SummaryOutput (output args)) ;;
  t <- truthy_dict override_data ;;
  if t then
    match override_data with
    | Some o => overrides <- load o ;; print (SummaryOverrides (size overrides))
    | None => ret tt
    end
  else ret tt.


(** The exit status of the process. *)
Definition exit_status {A} (r : res A) : option Z :=
  match r with
  | Ret _ => Some 0%Z
  | Raise _ => Some 1%Z
  | Exit code => Some code
  | Wrong => None
  end.

Definition initial : state := State ∅ [].

(** ** Observations on states and traces *)

(** The state after some more events. *)
Definition log (s : state) (evs : list event) : state :=
  State (heap s) (trace s ++ evs).

Definition is_open (ev : event) : bool :=
  match ev with Open _ => true | _ => false end.

Definition is_match (ev : event) : bool :=
  match ev with MatchTemplate _ => true | _ => false end.

Definition is_extract (ev : event) : bool :=
  match ev with ExtractData _ _ => true | _ => false end.

(** The number of times [load_json_file] has opened a file. *)
Definition loader_calls (tr : list event) : nat :=
  length (filter (fun ev => is_open ev = true) tr).

(** The number of calls of [match_template]. *)
Definition matcher_calls (tr : list event) : nat :=
  length (filter (fun ev => is_match ev = true) tr).

(** The events of the template step up to the return of the matcher. *)
Definition matched_events (args : Args) : list event :=
  [Print Step2; Print AttemptingMatch; MatchTemplate (image args);
   Print TemplateMatched].

(** The events of the template step up to the call of the loader, the
    matcher having raised [e]. *)
Definition fallback_events (args : Args) (e : exn) : list event :=
  [Print Step2; Print AttemptingMatch; MatchTemplate (image args);
   Print (MatchingFailed (exc_msg e)); Print LoadingFromPath].

(** The command line with another [--debug]. *)
Definition set_debug (b : bool) (args : Args) : Args :=
  {| image := image args; template := template args; output := output args;
     data := data args; debug := b |}.

(** ** The rules of the validator, as the specification lists them *)

(** A field that breaks no rule: a mapping with both keys. *)
Definition field_ok (f : value) : Prop :=
  exists m, f = VDict m /\ is_Some (m !! "name") /\ is_Some (m !! "pixel_bbox").

(** The rule the element at index [i] breaks first: mapping, then [name],
    then [pixel_bbox]. *)
Inductive field_violation (i : nat) : value -> message -> Prop :=
| not_object f :
    (forall m, f <> VDict m) ->
    field_violation i f (FieldNotObject i)
| missing_name m :
    m !! "name" = None ->
    field_violation i (VDict m) (FieldMissingName i)
| missing_bbox m :
    is_Some (m !! "name") ->
    m !! "pixel_bbox" = None ->
    field_violation i (VDict m) (FieldMissingBBox i).

(** The first rule a template breaks, in the order: the [fields] key, the
    type of [fields], then the elements by index, every element before the
    offending one breaking none. *)
Inductive first_violation (d : gmap string value) : message -> Prop :=
| no_fields_key :
    d !! "fields" = None ->
    first_violation d MissingFieldsKey
| fields_not_list v :
    d !! "fields" = Some v ->
    (forall l, v <> VList l) ->
    first_violation d FieldsNotList
| bad_field fields i f k :
    d !! "fields" = Some (VList fields) ->
    fields !! i = Some f ->
    (forall j g, (j < i)%nat -> fields !! j = Some g -> field_ok g) ->
    field_violation i f k ->
    first_violation d k.

(** ** Sample inputs *)

Module Sample.

Definition field (name : string) : value :=
  VDict {[ "name" := VStr name;
           "pixel_bbox" := VList [VInt 0; VInt 0; VInt 10; VInt 10] ]}.

Definition good_fields : list value := [field "full_name"; field "date"].

Definition good_entries : gmap string value :=
  {[ "fields" := VList good_fields ]}.

Definition good_template : value := VDict good_entries.

(** The second field has no [name]; the third is not a mapping. *)
Definition nameless_fields : list value :=
  [field "full_name"; VDict {[ "pixel_bbox" := VList [] ]}; VStr "x"].

Definition nameless_template : gmap string value :=
  {[ "fields" := VList nameless_fields ]}.

Definition not_found : exn := Exc FileNotFoundError (Text "No such file").
Definition syntax_error : exn := Exc JSONDecodeError (Text "Expecting value").
Definition no_match : exn := Exc (OtherException "RuntimeError") (Text "no match").

(** Four files: a good template, a template whose [fields] is a string,
    overrides, and a file that is no JSON. *)
Definition files (p : string) : exn + string :=
  if bool_decide (p = "good.json") then inr "GOOD"
  else if bool_decide (p = "list.json") then inr "LIST"
  else if bool_decide (p = "data.json") then inr "DATA"
  else if bool_decide (p = "broken.json") then inr "{"
  else inl not_found.

Definition parse (content : string) : exn + value :=
  if bool_decide (content = "GOOD") then inr good_template
  else if bool_decide (content = "LIST")
       then inr (VDict {[ "fields" := VStr "not-a-list" ]})
  else if bool_decide (content = "DATA")
       then inr (VDict {[ "full_name" := VStr "J. Doe" ]})
  else inl syntax_error.

Definition world (matcher : option (string -> exn + value)) : World := {|
  os_path_exists := fun p =>
    match files p with
    | inr _ => true
    | inl _ => bool_decide (p = "form.png")
    end;
  open_read := files;
  json_load := parse;
  match_template := matcher;
  extract_data_from_image := fun _ _ => inr {[ "full_name" := "Jane Doe" ]};
  fill_form := fun _ _ _ => inr (FilledImage 0);
  save_filled_form := fun _ _ => inr tt;
  path_parent := fun _ => "out";
  path_str := fun p => p;
  mkdir := fun _ => inr tt
|}.

(** No matcher; a matcher that finds the good template; one that fails. *)
Definition plain : World := world None.
Definition matching : World := world (Some (fun _ => inr good_template)).
Definition failing : World := world (Some (fun _ => inl no_match)).

Definition args (template_path : string) : Args := {|
  image := "form.png"; template := template_path; output := "out/filled.pdf";
  data := None; debug := true
|}.

Definition args_with_data (template_path data_path : string) : Args := {|
  image := "form.png"; template := template_path; output := "out/filled.pdf";
  data := Some data_path; debug := false
|}.

(** The data handed to [fill_form] in a run. *)
Definition filled_with (tr : list event) : list (gmap string value) :=
  omap (fun ev => match ev with FillForm _ _ d => Some d | _ => None end) tr.

(** The state of a run on [list.json] when the template step begins. *)
Definition after_inputs : state :=
  snd (validate_inputs failing (args "list.json")
         (log initial [Print Starting])).

(** A store with the extracted data at 0 and the overrides at 1. *)
Definition extracted : gmap string value :=
  {[ "full_name" := VStr "Jane Doe"; "date" := VStr "2024" ]}.
Definition overrides : gmap string value :=
  {[ "full_name" := VStr "J. Doe"; "city" := VStr "Oslo" ]}.
Definition two_dicts : state :=
  State {[ 0%nat := extracted; 1%nat := overrides ]} [].
Definition with_empty : state :=
  State {[ 0%nat := extracted; 1%nat := ∅ ]} [].

End Sample.

(** ** Further observations *)

(** The index a message of the validator names, if it names one. *)
Definition violation_index (k : message) : option nat :=
  match k with
  | FieldNotObject i | FieldMissingName i | FieldMissingBBox i => Some i
  | _ => None
  end.

(** The events of the first step: printing and tests of existence. *)
Definition is_check (ev : event) : bool :=
  match ev with Print _ | PathExists _ => true | _ => false end.

Definition is_fill (ev : event) : bool :=
  match ev with FillForm _ _ _ => true | _ => false end.

Definition is_save (ev : event) : bool :=
  match ev with SaveFilledForm _ _ => true | _ => false end.

(** The events of the template step: printing, the matcher, the loader. *)
Definition is_acquire (ev : event) : bool :=
  match ev with Print _ | MatchTemplate _ | Open _ => true | _ => false end.

(** The calls of the three modules that work on the form, in a trace. *)
Definition is_stage_call (ev : event) : bool :=
  is_extract ev || is_fill ev || is_save ev.

Definition stage_calls (tr : list event) : list event :=
  filter (fun ev => is_stage_call ev = true) tr.



(** The line of the first input that does not exist, in the order of the
    tests: image, template, data. *)
Definition first_missing (w : World) (args : Args) : option line :=
  if negb (os_path_exists w (image args)) then
    Some (ErrImageNotFound (image args))
  else if negb (os_path_exists w (template args)) then
    Some (ErrTemplateNotFound (template args))
  else
    match data args with
    | Some (String a p) =>
        if negb (os_path_exists w (String a p))
        then Some (ErrDataNotFound (String a p))
        else None
    | _ => None
    end.

(** The command line with another [--data]. *)
Definition set_data (d : option string) (args : Args) : Args :=
  {| image := image args; template := template args; output := output args;
     data := d; debug := debug args |}.

(** ** More sample inputs *)

Module Cases.

Definition denied : exn :=
  Exc (OtherException "PermissionError") (Text "Permission denied").
Definition ocr_failed : exn :=
  Exc (OtherException "RuntimeError") (Text "OCR failed").

(** The files of [Sample], and one that holds a JSON array. *)
Definition files (p : string) : exn + string :=
  if bool_decide (p = "array.json") then inr "ARRAY" else Sample.files p.

Definition parse (content : string) : exn + value :=
  if bool_decide (content = "ARRAY") then inr (VList [VStr "J. Doe"])
  else Sample.parse content.

(** A world put together from the answers that vary between the cases. *)
Definition build (found : string -> bool) (opened : string -> exn + string)
    (extracted : exn + gmap string string) (filled : exn + artifact)
    (made : exn + unit) : World := {|
  os_path_exists := found;
  open_read := opened;
  json_load := parse;
  match_template := None;
  extract_data_from_image := fun _ _ => extracted;
  fill_form := fun _ _ _ => filled;
  save_filled_form := fun _ _ => inr tt;
  path_parent := fun _ => "out";
  path_str := fun p => p;
  mkdir := fun _ => made
|}.

Definition jane : gmap string string := {[ "full_name" := "Jane Doe" ]}.

(** Every file is there and none can be read. *)
Definition locked : World :=
  build (fun _ => true) (fun _ => inl denied) (inr jane)
    (inr (FilledImage 0)) (inr tt).

(** No file is there. *)
Definition empty_disk : World :=
  build (fun _ => false) files (inr jane) (inr (FilledImage 0))
    (inr tt).

(** The extraction fails. *)
Definition blind : World :=
  build (fun _ => true) files (inl ocr_failed) (inr (FilledImage 0))
    (inr tt).

(** All goes well. *)
Definition fine : World :=
  build (fun _ => true) files (inr jane) (inr (FilledImage 0))
    (inr tt).

(** The states of a run from [initial] when the template step begins
    and when it has ended. *)
Definition at_template (w : World) (args : Args) : state :=
  snd (validate_inputs w args (log initial [Print Starting])).

Definition at_extraction (w : World) (args : Args) : state :=
  snd (load_template w args (at_template w args)).

(** A store with three dictionaries, at 0, 1 and 2. *)
Definition later : gmap string value :=
  {[ "city" := VStr "Bergen"; "zip" := VStr "5003" ]}.
Definition three_dicts : state :=
  State {[ 0%nat := Sample.extracted; 1%nat := Sample.overrides;
           2%nat := later ]} [].

End Cases.

(** * Properties *)

(** ** The store *)

Lemma fresh_not_allocated (h : gmap loc (gmap string value)) :
  h !! fresh (dom h) = None.
Proof. apply not_elem_of_dom, is_fresh. Qed.

Lemma fresh_ne_allocated (h : gmap loc (gmap string value)) l d :
  h !! l = Some d -> l <> fresh (dom h).
Proof. intros Hl ->. rewrite fresh_not_allocated in Hl. discriminate. Qed.

Lemma dict_copy_eq s d entries :
  heap s !! d = Some entries ->
  dict_copy d s =
    (Ret (fresh (dom (heap s))),
     State (<[fresh (dom (heap s)) := entries]> (heap s)) (trace s)).
Proof. intros Hd. unfold dict_copy, bind, load, alloc. by rewrite Hd. Qed.

(** ** [merge_data] *)

(** What [merge_data] returns and what it leaves in the store: one new
    object, holding the overrides over the extracted entries. *)
Lemma merge_data_some s e o E O :
  heap s !! e = Some E ->
  heap s !! o = Some O ->
  merge_data e (Some o) s =
    (Ret (fresh (dom (heap s))),
     State (<[fresh (dom (heap s)) := O ∪ E]> (heap s)) (trace s)).
Proof.
  intros He Ho. unfold merge_data, bind at 1.
  rewrite (dict_copy_eq _ _ _ He).
  assert (Hne : fresh (dom (heap s)) <> o).
  { intros Heq. by apply (fresh_ne_allocated _ _ _ Ho). }
  unfold bind, truthy_dict, dict_update, bind, load, store, ret; simpl.
  rewrite lookup_insert_ne by done. rewrite Ho.
  destruct (bool_decide_reflect (O = ∅)) as [-> | Hnonempty]; simpl.
  - by rewrite (left_id_L ∅ (∪)).
  - rewrite lookup_insert_ne by done. rewrite Ho. simpl.
    rewrite lookup_insert_eq. simpl.
    rewrite lookup_insert_eq. simpl. by rewrite insert_insert_eq.
Qed.

Lemma merge_data_none s e E :
  heap s !! e = Some E ->
  merge_data e None s =
    (Ret (fresh (dom (heap s))),
     State (<[fresh (dom (heap s)) := E]> (heap s)) (trace s)).
Proof.
  intros He. unfold merge_data, bind at 1.
  by rewrite (dict_copy_eq _ _ _ He).
Qed.

(** C1. Merge law.  For extracted data [E] and overrides [O], both in the
    store, [merge_data] returns an object whose entries [R] satisfy, for
    every key [k]: [R[k] = O[k]] when [k] is in [O]; [R[k] = E[k]] when [k]
    is in [E] and not in [O]; and [k] is not in [R] when it is in neither. *)
Theorem merge_law s e o E O :
  heap s !! e = Some E ->
  heap s !! o = Some O ->
  exists merged s' R,
    merge_data e (Some o) s = (Ret merged, s') /\
    heap s' !! merged = Some R /\
    forall k,
      (is_Some (O !! k) -> R !! k = O !! k) /\
      (O !! k = None -> is_Some (E !! k) -> R !! k = E !! k) /\
      (O !! k = None -> E !! k = None -> R !! k = None).
Proof.
  intros He Ho. eexists _, _, (O ∪ E).
  split; [by apply merge_data_some|].
  split; [simpl; apply lookup_insert_eq|].
  intros k. repeat split.
  - intros [v Hv]. rewrite Hv. by apply lookup_union_Some_l.
  - intros Hnone _. by apply lookup_union_r.
  - intros HO HE. by apply lookup_union_None_2.
Qed.

Lemma merge_law_witness :
  heap Sample.two_dicts !! 0%nat = Some Sample.extracted /\
  heap Sample.two_dicts !! 1%nat = Some Sample.overrides /\
  exists merged s' R,
    merge_data 0%nat (Some 1%nat) Sample.two_dicts = (Ret merged, s') /\
    heap s' !! merged = Some R /\
    forall k,
      (is_Some (Sample.overrides !! k) -> R !! k = Sample.overrides !! k) /\
      (Sample.overrides !! k = None -> is_Some (Sample.extracted !! k) ->
       R !! k = Sample.extracted !! k) /\
      (Sample.overrides !! k = None -> Sample.extracted !! k = None ->
       R !! k = None).
Proof.
  assert (H0 : heap Sample.two_dicts !! 0%nat = Some Sample.extracted)
    by (vm_compute; reflexivity).
  assert (H1 : heap Sample.two_dicts !! 1%nat = Some Sample.overrides)
    by (vm_compute; reflexivity).
  split; [exact H0|]. split; [exact H1|].
  exact (merge_law Sample.two_dicts 0%nat 1%nat _ _ H0 H1).
Defined.

(** C7. Merging with no overrides ([None]) returns entries equal to [E],
    in an object that is not [E]: the object of [E] and every other object
    of the store are as they were, and nothing is done to the outside. *)
Theorem merge_absent_copies s e E :
  heap s !! e = Some E ->
  exists merged s',
    merge_data e None s = (Ret merged, s') /\
    heap s' !! merged = Some E /\
    merged <> e /\
    heap s !! merged = None /\
    heap s' !! e = Some E /\
    (forall l, l <> merged -> heap s' !! l = heap s !! l) /\
    trace s' = trace s.
Proof.
  intros He. eexists _, _. split; [by apply merge_data_none|]. simpl.
  assert (Hne : e <> fresh (dom (heap s))) by by eapply fresh_ne_allocated.
  repeat split.
  - apply lookup_insert_eq.
  - done.
  - apply fresh_not_allocated.
  - by rewrite lookup_insert_ne.
  - intros l Hl. by rewrite lookup_insert_ne.
Qed.

Lemma merge_absent_copies_witness :
  heap Sample.two_dicts !! 0%nat = Some Sample.extracted /\
  exists merged s',
    merge_data 0%nat None Sample.two_dicts = (Ret merged, s') /\
    heap s' !! merged = Some Sample.extracted /\
    merged <> 0%nat /\
    heap Sample.two_dicts !! merged = None /\
    heap s' !! 0%nat = Some Sample.extracted /\
    (forall l, l <> merged -> heap s' !! l = heap Sample.two_dicts !! l) /\
    trace s' = trace Sample.two_dicts.
Proof.
  assert (H0 : heap Sample.two_dicts !! 0%nat = Some Sample.extracted)
    by (vm_compute; reflexivity).
  split; [exact H0|].
  exact (merge_absent_copies Sample.two_dicts 0%nat _ H0).
Defined.

(** C9. Merging the overrides a second time changes nothing:
    [merge(merge(E, O), O) == merge(E, O)]. *)
Theorem merge_idempotent s e o E O :
  heap s !! e = Some E ->
  heap s !! o = Some O ->
  exists m1 s1 m2 s2 R,
    merge_data e (Some o) s = (Ret m1, s1) /\
    merge_data m1 (Some o) s1 = (Ret m2, s2) /\
    heap s1 !! m1 = Some R /\
    heap s2 !! m2 = Some R.
Proof.
  intros He Ho.
  assert (Hne : o <> fresh (dom (heap s))) by by eapply fresh_ne_allocated.
  eexists _, _, _, _, (O ∪ E).
  split; [by apply merge_data_some|].
  split.
  - apply merge_data_some with (E := O ∪ E) (O := O); simpl.
    + apply lookup_insert_eq.
    + by rewrite lookup_insert_ne.
  - simpl. split; [apply lookup_insert_eq|].
    rewrite lookup_insert_eq.
    by rewrite (assoc_L (∪)), (idemp_L (∪)).
Qed.

Lemma merge_idempotent_witness :
  heap Sample.two_dicts !! 0%nat = Some Sample.extracted /\
  heap Sample.two_dicts !! 1%nat = Some Sample.overrides /\
  exists m1 s1 m2 s2 R,
    merge_data 0%nat (Some 1%nat) Sample.two_dicts = (Ret m1, s1) /\
    merge_data m1 (Some 1%nat) s1 = (Ret m2, s2) /\
    heap s1 !! m1 = Some R /\
    heap s2 !! m2 = Some R.
Proof.
  assert (H0 : heap Sample.two_dicts !! 0%nat = Some Sample.extracted)
    by (vm_compute; reflexivity).
  assert (H1 : heap Sample.two_dicts !! 1%nat = Some Sample.overrides)
    by (vm_compute; reflexivity).
  split; [exact H0|]. split; [exact H1|].
  exact (merge_idempotent Sample.two_dicts 0%nat 1%nat _ _ H0 H1).
Defined.

(** C10. An empty dictionary of overrides is as good as none: the test
    [if override_data] is by truth value, so with [{}] the call does what
    it does with [None], and the entries returned are those of [E]. *)
Theorem merge_empty_as_absent s e o E :
  heap s !! e = Some E ->
  heap s !! o = Some ∅ ->
  merge_data e (Some o) s = merge_data e None s /\
  exists merged s',
    merge_data e (Some o) s = (Ret merged, s') /\
    heap s' !! merged = Some E.
Proof.
  intros He Ho.
  rewrite (merge_data_some _ _ _ _ _ He Ho), (merge_data_none _ _ _ He).
  rewrite (left_id_L ∅ (∪)).
  split; [done|]. eexists _, _. split; [done|].
  simpl. apply lookup_insert_eq.
Qed.

Lemma merge_empty_as_absent_witness :
  heap Sample.with_empty !! 0%nat = Some Sample.extracted /\
  heap Sample.with_empty !! 1%nat = Some ∅ /\
  merge_data 0%nat (Some 1%nat) Sample.with_empty =
    merge_data 0%nat None Sample.with_empty /\
  exists merged s',
    merge_data 0%nat (Some 1%nat) Sample.with_empty = (Ret merged, s') /\
    heap s' !! merged = Some Sample.extracted.
Proof.
  assert (H0 : heap Sample.with_empty !! 0%nat = Some Sample.extracted)
    by (vm_compute; reflexivity).
  assert (H1 : heap Sample.with_empty !! 1%nat = Some ∅)
    by (vm_compute; reflexivity).
  split; [exact H0|]. split; [exact H1|].
  exact (merge_empty_as_absent Sample.with_empty 0%nat 1%nat _ H0 H1).
Defined.

(** ** [validate_template] *)

Lemma has_key_true (m : gmap string value) key :
  is_Some (m !! key) -> bool_decide (is_Some (m !! key)) = true.
Proof. apply bool_decide_eq_true_2. Qed.

Lemma has_key_false (m : gmap string value) key :
  m !! key = None -> bool_decide (is_Some (m !! key)) = false.
Proof.
  intros Hnone. apply bool_decide_eq_false_2. rewrite Hnone.
  apply is_Some_None.
Qed.

Lemma validate_field_ok i f rest :
  field_ok f -> validate_fields i (f :: rest) = validate_fields (S i) rest.
Proof.
  intros (m & -> & Hname & Hbbox). simpl.
  by rewrite (has_key_true _ _ Hname), (has_key_true _ _ Hbbox).
Qed.

Lemma validate_field_violation i f k rest :
  field_violation i f k ->
  validate_fields i (f :: rest) = Raise (Exc ValueError k).
Proof.
  intros [g Hnot | m Hname | m Hname Hbbox]; simpl.
  - destruct g; try done. by destruct (Hnot d).
  - by rewrite (has_key_false _ _ Hname).
  - by rewrite (has_key_true _ _ Hname), (has_key_false _ _ Hbbox).
Qed.

(** The loop passes over the fields that break no rule. *)
Lemma validate_fields_ok fields :
  forall i, Forall field_ok fields -> validate_fields i fields = Ret tt.
Proof.
  induction fields as [|f rest IH]; intros i Hall; [done|].
  apply Forall_cons in Hall as [Hf Hrest].
  rewrite (validate_field_ok _ _ _ Hf). by apply IH.
Qed.

(** The loop stops at the first field that breaks a rule, with that rule.
    The loop started at index [i] meets the element [j] of what is left
    under the index [i + j]. *)
Lemma validate_fields_first fields :
  forall i j f k,
    fields !! j = Some f ->
    (forall j' g, (j' < j)%nat -> fields !! j' = Some g -> field_ok g) ->
    field_violation (i + j) f k ->
    validate_fields i fields = Raise (Exc ValueError k).
Proof.
  induction fields as [|f0 rest IH]; intros i j f k Hj Hbefore Hbad;
    [done|].
  destruct j as [|j].
  - injection Hj as ->. rewrite Nat.add_0_r in Hbad.
    by apply validate_field_violation.
  - rewrite validate_field_ok by (apply (Hbefore 0%nat); [lia|done]).
    apply (IH (S i) j f k); [done| |].
    + intros j' g Hlt Hg. apply (Hbefore (S j')); [lia|done].
    + by replace (S i + j)%nat with (i + S j)%nat by lia.
Qed.

(** Every field is a mapping or not, and a mapping has each key or not. *)
Lemma field_ok_or_violation i f :
  field_ok f \/ exists k, field_violation i f k.
Proof.
  destruct f as [| | | | | |m];
    try (right; eexists; by apply not_object).
  destruct (m !! "name") as [n|] eqn:Hname.
  - destruct (m !! "pixel_bbox") as [b|] eqn:Hbbox.
    + left. exists m. rewrite Hname, Hbbox. eauto.
    + right. eexists. apply missing_bbox; [by rewrite Hname|done].
  - right. eexists. by apply missing_name.
Qed.

(** What the loop does, whatever the fields: it passes, all fields being
    in order, or it raises the [ValueError] of the first field that is
    not. *)
Lemma validate_fields_cases fields :
  forall i,
    (Forall field_ok fields /\ validate_fields i fields = Ret tt) \/
    (exists j f k,
       fields !! j = Some f /\
       (forall j' g, (j' < j)%nat -> fields !! j' = Some g -> field_ok g) /\
       field_violation (i + j) f k /\
       validate_fields i fields = Raise (Exc ValueError k)).
Proof.
  induction fields as [|f rest IH]; intros i.
  - left. by split.
  - destruct (field_ok_or_violation i f) as [Hok | [k Hbad]].
    + rewrite (validate_field_ok _ _ _ Hok).
      destruct (IH (S i)) as [[Hall Hret] | (j & g & k & Hj & Hbefore & Hbad & Hraise)].
      * left. split; [by constructor|done].
      * right. exists (S j), g, k.
        split; [done|]. split; [|split; [|done]].
        -- intros [|j'] g' Hlt Hg'.
           ++ injection Hg' as <-. done.
           ++ apply (Hbefore j'); [lia|done].
        -- by replace (i + S j)%nat with (S i + j)%nat by lia.
    + right. exists 0%nat, f, k.
      split; [done|]. split; [|split].
      * intros j' g Hlt. lia.
      * by rewrite Nat.add_0_r.
      * by apply validate_field_violation.
Qed.

Lemma validate_mapping_fields d fields :
  d !! "fields" = Some (VList fields) ->
  validate_template (VDict d) = validate_fields 0 fields.
Proof.
  intros Hfields. unfold validate_template; simpl.
  rewrite has_key_true by (by rewrite Hfields). by rewrite Hfields.
Qed.

(** The first rule a template breaks is the one the validator raises. *)
Lemma first_violation_raised d k :
  first_violation d k ->
  validate_template (VDict d) = Raise (Exc ValueError k).
Proof.
  intros [Hnone | v Hv Hnot | fields i f k' Hfields Hi Hbefore Hbad].
  - unfold validate_template; simpl. by rewrite (has_key_false _ _ Hnone).
  - unfold validate_template; simpl.
    rewrite has_key_true by (by rewrite Hv). rewrite Hv.
    destruct v; try done. by destruct (Hnot l).
  - rewrite (validate_mapping_fields _ _ Hfields).
    by apply (validate_fields_first fields 0%nat i f).
Qed.

(** C5. The validator reports the first rule broken, in the order: the
    [fields] key, [fields] being a list, then the elements by index (a
    mapping, with [name], with [pixel_bbox]).  Whatever rule [k] a template
    breaks first, the validator raises the [ValueError] of [k], and [k] is
    the only rule that counts as broken first.  So when the first index [i]
    whose field breaks a rule holds a mapping without [name], the error is
    [FieldMissingName i] and no other. *)
Theorem validate_first_violation d k :
  first_violation d k ->
  validate_template (VDict d) = Raise (Exc ValueError k) /\
  forall k', first_violation d k' -> k' = k.
Proof.
  intros Hbad. pose proof (first_violation_raised _ _ Hbad) as Hraise.
  split; [done|]. intros k' Hbad'.
  pose proof (first_violation_raised _ _ Hbad') as Hraise'.
  rewrite Hraise in Hraise'. by injection Hraise'.
Qed.

Lemma nameless_first_violation :
  first_violation Sample.nameless_template (FieldMissingName 1).
Proof.
  apply (bad_field _ Sample.nameless_fields 1%nat
           (VDict {[ "pixel_bbox" := VList [] ]})).
  - vm_compute; reflexivity.
  - reflexivity.
  - intros [|j] g Hlt Hg; [|lia]. injection Hg as <-.
    eexists. split; [reflexivity|].
    split; eexists; vm_compute; reflexivity.
  - apply missing_name. vm_compute; reflexivity.
Defined.

Lemma validate_first_violation_witness :
  first_violation Sample.nameless_template (FieldMissingName 1) /\
  validate_template (VDict Sample.nameless_template) =
    Raise (Exc ValueError (FieldMissingName 1)) /\
  forall k', first_violation Sample.nameless_template k' ->
             k' = FieldMissingName 1.
Proof.
  split; [exact nameless_first_violation|].
  exact (validate_first_violation _ _ nameless_first_violation).
Defined.

(** C6. A template whose [fields] is a list of mappings that all have
    [name] and [pixel_bbox] is accepted: the validator returns, raising
    nothing. *)
Theorem valid_template_accepted d fields :
  d !! "fields" = Some (VList fields) ->
  Forall field_ok fields ->
  validate_template (VDict d) = Ret tt.
Proof.
  intros Hfields Hall. rewrite (validate_mapping_fields _ _ Hfields).
  by apply validate_fields_ok.
Qed.

Lemma sample_field_ok name : field_ok (Sample.field name).
Proof.
  eexists. split; [reflexivity|].
  split; eexists; vm_compute; reflexivity.
Defined.

Lemma valid_template_accepted_witness :
  Sample.good_entries !! "fields" = Some (VList Sample.good_fields) /\
  Forall field_ok Sample.good_fields /\
  validate_template (VDict Sample.good_entries) = Ret tt.
Proof.
  assert (Hfields :
    Sample.good_entries !! "fields" = Some (VList Sample.good_fields))
    by (vm_compute; reflexivity).
  assert (Hall : Forall field_ok Sample.good_fields)
    by (repeat constructor; apply sample_field_ok).
  split; [exact Hfields|]. split; [exact Hall|].
  exact (valid_template_accepted _ _ Hfields Hall).
Defined.

(** On a mapping the validator does one of two things: it returns, the
    template being in order, or it raises the [ValueError] of the first
    rule broken.  This is C5 with its converse. *)
Lemma validate_mapping_cases d :
  (exists fields,
     d !! "fields" = Some (VList fields) /\ Forall field_ok fields /\
     validate_template (VDict d) = Ret tt) \/
  (exists k,
     first_violation d k /\
     validate_template (VDict d) = Raise (Exc ValueError k)).
Proof.
  destruct (d !! "fields") as [v|] eqn:Hv.
  - assert (Hlist : (exists l, v = VList l) \/ (forall l, v <> VList l))
      by (destruct v; eauto).
    destruct Hlist as [[fields ->] | Hnot].
    + rewrite (validate_mapping_fields _ _ Hv).
      destruct (validate_fields_cases fields 0)
        as [[Hall Hret] | (j & f & k & Hj & Hbefore & Hbad & Hraise)].
      * left. by exists fields.
      * right. exists k. split; [|done]. by apply (bad_field _ fields j f).
    + right. exists FieldsNotList.
      assert (Hbad : first_violation d FieldsNotList).
      { by apply (fields_not_list _ v). }
      split; [done|]. by apply first_violation_raised.
  - right. exists MissingFieldsKey.
    assert (Hbad : first_violation d MissingFieldsKey)
      by by apply no_fields_key.
    split; [done|]. by apply first_violation_raised.
Qed.

(** What the validator raises on a mapping is the [ValueError] of the
    first rule broken, and of no other. *)
Lemma validate_template_raises d e :
  validate_template (VDict d) = Raise e ->
  exists k, e = Exc ValueError k /\ first_violation d k.
Proof.
  destruct (validate_mapping_cases d)
    as [(fields & _ & _ & Hret) | (k & Hbad & Hraise)].
  - rewrite Hret. discriminate.
  - rewrite Hraise. intros [= <-]. by exists k.
Qed.

(** The validator returns or raises; it neither leaves the process nor
    reads the store. *)
Lemma validate_template_total t :
  validate_template t = Ret tt \/ exists e, validate_template t = Raise e.
Proof.
  destruct t as [| | | | s |l|d].
  1-4: right; by eexists.
  - unfold validate_template; simpl.
    destruct (String.index 0 "fields" s); right; by eexists.
  - unfold validate_template; simpl.
    destruct (existsb _ l); right; by eexists.
  - destruct (validate_mapping_cases d)
      as [(fields & _ & _ & Hret) | (k & _ & Hraise)]; [by left|].
    right. by eexists.
Qed.

(** A validated template has a list under [fields], so the count of the
    next line can be taken. *)
Lemma validated_has_fields t :
  validate_template t = Ret tt ->
  exists fields, py_getitem t "fields" = Ret (VList fields).
Proof.
  destruct t as [| | | | s |l|d]; try discriminate.
  - unfold validate_template; simpl.
    destruct (String.index 0 "fields" s); discriminate.
  - unfold validate_template; simpl.
    destruct (existsb _ l); discriminate.
  - destruct (validate_mapping_cases d)
      as [(fields & Hfields & _ & _) | (k & _ & Hraise)].
    + intros _. exists fields. simpl. by rewrite Hfields.
    + rewrite Hraise. discriminate.
Qed.

(** ** [load_json_file] *)

(** The loader opens the file once, whatever comes of it. *)
Lemma load_json_file_opens_once w file_path s :
  exists r,
    load_json_file w file_path s = (r, log s [Open file_path]) /\
    r <> Wrong /\ (forall c, r <> Exit c).
Proof.
  unfold load_json_file, try_except, bind, call, emit, raise, ret, lift, log.
  simpl.
  destruct (open_read w file_path) as [e|content]; simpl.
  - destruct e as [[] m]; simpl; eexists; split; try reflexivity; done.
  - destruct (json_load w content) as [e|v]; simpl.
    + destruct e as [[] m]; simpl; eexists; split; try reflexivity; done.
    + eexists; split; [reflexivity|done].
Qed.

Lemma load_json_file_not_found w file_path s e :
  open_read w file_path = inl e ->
  exc_cls e = FileNotFoundError ->
  load_json_file w file_path s =
    (Raise (Exc FileNotFoundError (JsonFileNotFound file_path)),
     log s [Open file_path]).
Proof.
  intros Hopen Hcls.
  unfold load_json_file, try_except, bind, call, emit, raise, ret, lift, log.
  simpl. rewrite Hopen. simpl. by rewrite Hcls.
Qed.

Lemma load_json_file_invalid w file_path s content e :
  open_read w file_path = inr content ->
  json_load w content = inl e ->
  exc_cls e = JSONDecodeError ->
  load_json_file w file_path s =
    (Raise (Exc ValueError (InvalidJson file_path (exc_msg e))),
     log s [Open file_path]).
Proof.
  intros Hopen Hparse Hcls.
  unfold load_json_file, try_except, bind, call, emit, raise, ret, lift, log.
  simpl. rewrite Hopen. simpl. rewrite Hparse. simpl. by rewrite Hcls.
Qed.

Lemma load_json_file_parsed w file_path s content v :
  open_read w file_path = inr content ->
  json_load w content = inr v ->
  load_json_file w file_path s = (Ret v, log s [Open file_path]).
Proof.
  intros Hopen Hparse.
  unfold load_json_file, try_except, bind, call, emit, raise, ret, lift, log.
  simpl. rewrite Hopen. simpl. by rewrite Hparse.
Qed.

(** C8. The two failures of the loader.  When [open] finds no file at the
    path, the loader raises a [FileNotFoundError] naming the path.  When
    the content of the file is no JSON, it raises a [ValueError] naming
    the path and carrying the text of the decoder's error.  The classes
    of the two differ, so a caller can tell them apart. *)
Theorem load_json_file_failures w p q s s' e content e' :
  open_read w p = inl e ->
  exc_cls e = FileNotFoundError ->
  open_read w q = inr content ->
  json_load w content = inl e' ->
  exc_cls e' = JSONDecodeError ->
  exists missing invalid,
    fst (load_json_file w p s) = Raise missing /\
    fst (load_json_file w q s') = Raise invalid /\
    missing = Exc FileNotFoundError (JsonFileNotFound p) /\
    invalid = Exc ValueError (InvalidJson q (exc_msg e')) /\
    exc_cls missing <> exc_cls invalid.
Proof.
  intros Hopen Hcls Hopen' Hparse Hcls'.
  rewrite (load_json_file_not_found _ _ _ _ Hopen Hcls).
  rewrite (load_json_file_invalid _ _ _ _ _ Hopen' Hparse Hcls').
  eexists _, _. repeat split. simpl. discriminate.
Qed.

Lemma load_json_file_failures_witness :
  open_read Sample.plain "absent.json" = inl Sample.not_found /\
  exc_cls Sample.not_found = FileNotFoundError /\
  open_read Sample.plain "broken.json" = inr "{" /\
  json_load Sample.plain "{" = inl Sample.syntax_error /\
  exc_cls Sample.syntax_error = JSONDecodeError /\
  exists missing invalid,
    fst (load_json_file Sample.plain "absent.json" initial) = Raise missing /\
    fst (load_json_file Sample.plain "broken.json" initial) = Raise invalid /\
    missing = Exc FileNotFoundError (JsonFileNotFound "absent.json") /\
    invalid =
      Exc ValueError (InvalidJson "broken.json" (exc_msg Sample.syntax_error)) /\
    exc_cls missing <> exc_cls invalid.
Proof.
  set (w := Sample.plain).
  assert (H1 : open_read w "absent.json" = inl Sample.not_found)
    by reflexivity.
  assert (H2 : exc_cls Sample.not_found = FileNotFoundError) by reflexivity.
  assert (H3 : open_read w "broken.json" = inr "{") by reflexivity.
  assert (H4 : json_load w "{" = inl Sample.syntax_error) by reflexivity.
  assert (H5 : exc_cls Sample.syntax_error = JSONDecodeError)
    by reflexivity.
  repeat (split; [assumption|]).
  exact (load_json_file_failures w _ _ initial initial _ _ _ H1 H2 H3 H4 H5).
Defined.

(** ** The template step of [main] *)

Lemma loader_calls_app tr tr' :
  loader_calls (tr ++ tr') = (loader_calls tr + loader_calls tr')%nat.
Proof. unfold loader_calls. by rewrite filter_app, length_app. Qed.

Lemma matcher_calls_app tr tr' :
  matcher_calls (tr ++ tr') = (matcher_calls tr + matcher_calls tr')%nat.
Proof. unfold matcher_calls. by rewrite filter_app, length_app. Qed.

Lemma log_log s evs evs' : log (log s evs) evs' = log s (evs ++ evs').
Proof. unfold log; simpl. by rewrite app_assoc. Qed.

Ltac run_step :=
  unfold load_template, try_except, bind, call, print, emit, raise, ret,
    lift, sys_exit, log, matched_events, fallback_events;
  simpl.

(** The matcher returned a template that passes validation. *)
Lemma load_template_matched_valid w args s matcher t fields :
  match_template w = Some matcher ->
  matcher (image args) = inr t ->
  validate_template t = Ret tt ->
  py_getitem t "fields" = Ret (VList fields) ->
  load_template w args s =
    (Ret t,
     log s (matched_events args ++ [Print (TemplateLoaded (length fields))])).
Proof.
  intros Hm Ht Hvalid Hfields. run_step.
  rewrite Hm; simpl. rewrite Ht; simpl. rewrite Hvalid; simpl.
  rewrite Hfields; simpl. by rewrite <- !app_assoc.
Qed.

(** The matcher returned a template that fails validation. *)
Lemma load_template_matched_invalid w args s matcher t v :
  match_template w = Some matcher ->
  matcher (image args) = inr t ->
  validate_template t = Raise v ->
  load_template w args s =
    (Exit 1,
     log s (matched_events args ++ [Print (ErrTemplateLoad (exc_msg v))])).
Proof.
  intros Hm Ht Hinvalid. run_step.
  rewrite Hm; simpl. rewrite Ht; simpl. rewrite Hinvalid; simpl.
  by rewrite <- !app_assoc.
Qed.

(** C2. When the matcher returns a template [t] and raises nothing, the
    template step returns [t] and no other (it returns it when [t] passes
    validation), and the loader is not called: the count of files opened
    is what it was before the step. *)
Theorem matched_template_is_used w args s matcher t :
  match_template w = Some matcher ->
  matcher (image args) = inr t ->
  (validate_template t = Ret tt -> fst (load_template w args s) = Ret t) /\
  (forall t', fst (load_template w args s) = Ret t' -> t' = t) /\
  loader_calls (trace (snd (load_template w args s))) =
    loader_calls (trace s).
Proof.
  intros Hm Ht.
  destruct (validate_template_total t) as [Hvalid | [v Hinvalid]].
  - destruct (validated_has_fields _ Hvalid) as [fields Hfields].
    rewrite (load_template_matched_valid _ _ _ _ _ _ Hm Ht Hvalid Hfields).
    simpl. split; [done|]. split; [by intros t' [= <-]|].
    rewrite loader_calls_app, Nat.add_comm. reflexivity.
  - rewrite (load_template_matched_invalid _ _ _ _ _ _ Hm Ht Hinvalid).
    simpl. split; [by rewrite Hinvalid|]. split; [done|].
    rewrite loader_calls_app, Nat.add_comm. reflexivity.
Qed.

Lemma matched_template_is_used_witness :
  match_template Sample.matching = Some (fun _ => inr Sample.good_template) /\
  (fun _ : string => @inr exn value Sample.good_template)
    (image (Sample.args "good.json")) = inr Sample.good_template /\
  (validate_template Sample.good_template = Ret tt ->
   fst (load_template Sample.matching (Sample.args "good.json") initial) =
     Ret Sample.good_template) /\
  (forall t',
     fst (load_template Sample.matching (Sample.args "good.json") initial) =
       Ret t' -> t' = Sample.good_template) /\
  loader_calls
    (trace (snd (load_template Sample.matching (Sample.args "good.json")
                   initial))) =
    loader_calls (trace initial).
Proof.
  split; [reflexivity|]. split; [reflexivity|].
  exact (matched_template_is_used Sample.matching (Sample.args "good.json")
           initial _ Sample.good_template eq_refl eq_refl).
Defined.

(** After a failure of the matcher the step goes on with the loader, on
    the template path, and ends by what the loader and the validator
    give. *)
Lemma load_template_fallback w args s matcher e :
  match_template w = Some matcher ->
  matcher (image args) = inl e ->
  exists r,
    load_json_file w (template args) (log s (fallback_events args e)) =
      (r, log s (fallback_events args e ++ [Open (template args)])) /\
    match r with
    | Ret t =>
        match validate_template t with
        | Ret _ =>
            exists fields,
              py_getitem t "fields" = Ret (VList fields) /\
              load_template w args s =
                (Ret t,
                 log s (fallback_events args e ++
                        [Open (template args);
                         Print (TemplateLoaded (length fields))]))
        | Raise v =>
            load_template w args s =
              (Exit 1,
               log s (fallback_events args e ++
                      [Open (template args);
                       Print (ErrTemplateLoad (exc_msg v))]))
        | _ => False
        end
    | Raise le =>
        load_template w args s =
          (Exit 1,
           log s (fallback_events args e ++
                  [Open (template args);
                   Print (ErrTemplateLoad (exc_msg le))]))
    | _ => False
    end.
Proof.
  intros Hm He.
  destruct (load_json_file_opens_once w (template args)
              (log s (fallback_events args e))) as (r & Hload & Hw & Hx).
  exists r. rewrite Hload, log_log. split; [done|].
  assert (Hstep : load_template w args s =
    match r with
    | Ret t =>
        match validate_template t with
        | Ret _ =>
            match and_then (py_getitem t "fields") py_len with
            | Ret n =>
                (Ret t,
                 log s (fallback_events args e ++
                        [Open (template args); Print (TemplateLoaded n)]))
            | Raise v =>
                (Exit 1,
                 log s (fallback_events args e ++
                        [Open (template args);
                         Print (ErrTemplateLoad (exc_msg v))]))
            | Exit c =>
                (Exit c, log s (fallback_events args e ++ [Open (template args)]))
            | Wrong =>
                (Wrong, log s (fallback_events args e ++ [Open (template args)]))
            end
        | Raise v =>
            (Exit 1,
             log s (fallback_events args e ++
                    [Open (template args);
                     Print (ErrTemplateLoad (exc_msg v))]))
        | Exit c =>
            (Exit c, log s (fallback_events args e ++ [Open (template args)]))
        | Wrong =>
            (Wrong, log s (fallback_events args e ++ [Open (template args)]))
        end
    | Raise le =>
        (Exit 1,
         log s (fallback_events args e ++
                [Open (template args); Print (ErrTemplateLoad (exc_msg le))]))
    | Exit c =>
        (Exit c, log s (fallback_events args e ++ [Open (template args)]))
    | Wrong =>
        (Wrong, log s (fallback_events args e ++ [Open (template args)]))
    end).
  { revert Hload. run_step. rewrite Hm; simpl. rewrite He; simpl.
    rewrite <- !app_assoc; simpl. intros ->.
    destruct r as [t|le|c|]; simpl; try done.
    - destruct (validate_template t) as [[]|v|c|]; simpl; try done.
      + destruct (and_then (py_getitem t "fields") py_len); simpl;
          by rewrite <- ?app_assoc.
      + by rewrite <- !app_assoc.
    - by rewrite <- !app_assoc. }
  destruct r as [t|le|c|]; [|done|by destruct (Hx c)|done].
  destruct (validate_template_total t) as [Hvalid | [v Hinvalid]].
  - destruct (validated_has_fields _ Hvalid) as [fields Hfields].
    rewrite Hvalid in Hstep |- *. exists fields. split; [done|].
    rewrite Hstep, Hfields. done.
  - by rewrite Hinvalid in Hstep |- *.
Qed.

(** A run that leaves the process in the template step goes no further. *)
Lemma main_stops_at_template w args s0 s c s' :
  validate_inputs w args (log s0 [Print Starting]) = (Ret tt, s) ->
  load_template w args s = (Exit c, s') ->
  main w args s0 = (Exit c, s').
Proof.
  unfold log. intros Hinputs Hstep.
  unfold main, bind at 1, print, emit. simpl.
  unfold bind at 1. rewrite Hinputs.
  unfold bind at 1. by rewrite Hstep.
Qed.

(** C3. When the matcher raises, whatever it raises, the step catches it
    and calls the loader on the template path.  A template so loaded that
    passes validation is the template of the run.  One that fails
    validation ends the run: the line printed is the one of the template
    step, with the message of the validator, the process exits with 1, and
    nothing is tried again: the matcher was called once, the loader
    once. *)
Theorem matcher_failure_falls_back w args s matcher e :
  match_template w = Some matcher ->
  matcher (image args) = inl e ->
  (exists r,
     load_json_file w (template args) (log s (fallback_events args e)) =
       (r, log s (fallback_events args e ++ [Open (template args)])) /\
     (forall t,
        r = Ret t -> validate_template t = Ret tt ->
        fst (load_template w args s) = Ret t) /\
     (forall t v,
        r = Ret t -> validate_template t = Raise v ->
        let s' :=
          log s (fallback_events args e ++
                 [Open (template args); Print (ErrTemplateLoad (exc_msg v))])
        in
        load_template w args s = (Exit 1, s') /\
        forall s0,
          validate_inputs w args (log s0 [Print Starting]) = (Ret tt, s) ->
          main w args s0 = (Exit 1, s') /\
          exit_status (fst (main w args s0)) = Some 1%Z)) /\
  matcher_calls (trace (snd (load_template w args s))) =
    S (matcher_calls (trace s)) /\
  loader_calls (trace (snd (load_template w args s))) =
    S (loader_calls (trace s)).
Proof.
  intros Hm He.
  destruct (load_template_fallback w args s matcher e Hm He)
    as (r & Hload & Hstep).
  split.
  - exists r. split; [done|]. split.
    + intros t -> Hvalid. rewrite Hvalid in Hstep.
      destruct Hstep as (fields & _ & ->). done.
    + intros t v -> Hinvalid s'. rewrite Hinvalid in Hstep.
      split; [done|]. intros s0 Hinputs.
      rewrite (main_stops_at_template _ _ _ _ _ _ Hinputs Hstep). done.
  - assert (Htrace : exists l,
      trace (snd (load_template w args s)) =
        (trace s ++ fallback_events args e ++
         [Open (template args); Print l])%list).
    { destruct r as [t|le|c|]; try done.
      - destruct (validate_template t) as [[]|v|c|]; try done.
        + destruct Hstep as (fields & _ & ->). by eexists.
        + rewrite Hstep. by eexists.
      - rewrite Hstep. by eexists. }
    destruct Htrace as [l ->].
    rewrite matcher_calls_app, loader_calls_app.
    split; rewrite Nat.add_comm; reflexivity.
Qed.

Lemma matcher_failure_falls_back_witness :
  match_template Sample.failing = Some (fun _ => inl Sample.no_match) /\
  (fun _ : string => @inl exn value Sample.no_match)
    (image (Sample.args "list.json")) = inl Sample.no_match /\
  main Sample.failing (Sample.args "list.json") initial =
    (Exit 1,
     log Sample.after_inputs
       (fallback_events (Sample.args "list.json") Sample.no_match ++
        [Open "list.json"; Print (ErrTemplateLoad FieldsNotList)])) /\
  loader_calls
    (trace (snd (load_template Sample.failing (Sample.args "list.json")
                   Sample.after_inputs))) = 1%nat.
Proof.
  split; [reflexivity|]. split; [reflexivity|].
  destruct (matcher_failure_falls_back Sample.failing
              (Sample.args "list.json") Sample.after_inputs _
              Sample.no_match eq_refl eq_refl)
    as [(r & Hload & _ & Hinvalid) [_ Hloader]].
  split; [|exact Hloader].
  assert (Hr : r = Ret (VDict {[ "fields" := VStr "not-a-list" ]})).
  { vm_compute in Hload. by injection Hload. }
  destruct (Hinvalid _ (Exc ValueError FieldsNotList) Hr) as [_ Hmain].
  { vm_compute; reflexivity. }
  apply (Hmain initial). vm_compute; reflexivity.
Defined.

(** ** The [--debug] flag *)

(** C4. [main] never reads [args.debug]: with the flag and without it the
    run is the same in everything, its result, the store and the trace,
    and so in the call [ExtractData], which carries the image path and the
    template and nothing of the flag.  The flag has no effect on the
    orchestration; it is not forwarded to the extraction either. *)
Theorem debug_not_forwarded w args s :
  main w (set_debug true args) s = main w (set_debug false args) s.
Proof. reflexivity. Qed.

(** The same on a sample run with [--debug]: the extraction is called
    once, with the image path and the template. *)
Example debug_run_extract_call :
  filter (fun ev => is_extract ev = true)
    (trace (snd (main Sample.plain (Sample.args "good.json") initial))) =
    [ExtractData "form.png" Sample.good_template] /\
  debug (Sample.args "good.json") = true /\
  main Sample.plain (Sample.args "good.json") initial =
    main Sample.plain (set_debug false (Sample.args "good.json")) initial.
Proof. split; [vm_compute; reflexivity|]. split; reflexivity. Qed.

(** ** Sample runs *)

(** A template that is a string or [None] is no mapping: the tests of the
    validator go by what [in] and indexing do on such values. *)
Example validate_string_without_fields :
  validate_template (VStr "no such word") = Raise (Exc ValueError MissingFieldsKey).
Proof. reflexivity. Qed.

Example validate_string_with_fields :
  validate_template (VStr "the fields") = Raise (Exc TypeError (BadIndex "str")).
Proof. reflexivity. Qed.

Example validate_none :
  validate_template VNone = Raise (Exc TypeError (NotIterable "NoneType")).
Proof. reflexivity. Qed.

(** An earlier field without [pixel_bbox] is reported before a later field
    without [name]. *)
Example validate_earlier_rule_wins :
  validate_template
    (VDict {[ "fields" :=
                VList [VDict {[ "name" := VStr "a" ]};
                       VDict {[ "pixel_bbox" := VList [] ]}] ]}) =
    Raise (Exc ValueError (FieldMissingBBox 0)).
Proof. vm_compute; reflexivity. Qed.

(** No matcher, a good template, no overrides: the run succeeds and the
    form is filled with the extracted data. *)
Example run_without_overrides :
  let run := main Sample.plain (Sample.args "good.json") initial in
  exit_status (fst run) = Some 0%Z /\
  Sample.filled_with (trace (snd run)) = [{[ "full_name" := VStr "Jane Doe" ]}].
Proof. split; vm_compute; reflexivity. Qed.

(** The same with overrides: the override wins. *)
Example run_with_overrides :
  let run :=
    main Sample.plain (Sample.args_with_data "good.json" "data.json") initial in
  exit_status (fst run) = Some 0%Z /\
  Sample.filled_with (trace (snd run)) = [{[ "full_name" := VStr "J. Doe" ]}].
Proof. split; vm_compute; reflexivity. Qed.

(** A template whose [fields] is no list: the run ends in the template
    step, before any extraction. *)
Example run_fields_not_list :
  let run := main Sample.plain (Sample.args "list.json") initial in
  fst run = Exit 1 /\
  last (trace (snd run)) = Some (Print (ErrTemplateLoad FieldsNotList)) /\
  filter (fun ev => is_extract ev = true) (trace (snd run)) = [].
Proof. repeat split; vm_compute; reflexivity. Qed.

(** No template file: the run ends in the first step, and nothing but
    the two tests of existence is asked of the outside. *)
Example run_template_not_found :
  main Sample.plain (Sample.args "absent.json") initial =
    (Exit 1,
     State ∅ [Print Starting; Print Step1; PathExists "form.png";
              PathExists "absent.json";
              Print (ErrTemplateNotFound "absent.json")]).
Proof. vm_compute; reflexivity. Qed.

(** * Further properties *)

(** ** More on [validate_template] *)

(** X1. What the validator accepts is in order: an accepted template is a
    mapping, its [fields] is a list, and every element of the list is a
    mapping with [name] and [pixel_bbox]. *)
Theorem accepted_template_is_valid t :
  validate_template t = Ret tt ->
  exists d fields,
    t = VDict d /\
    d !! "fields" = Some (VList fields) /\
    Forall field_ok fields.
Proof.
  destruct t as [| | | | s |l|d]; try discriminate.
  - unfold validate_template; simpl.
    destruct (String.index 0 "fields" s); discriminate.
  - unfold validate_template; simpl.
    destruct (existsb _ l); discriminate.
  - destruct (validate_mapping_cases d)
      as [(fields & Hfields & Hall & _) | (k & _ & Hraise)].
    + intros _. by exists d, fields.
    + rewrite Hraise. discriminate.
Qed.

Lemma accepted_template_is_valid_witness :
  validate_template Sample.good_template = Ret tt /\
  exists d fields,
    Sample.good_template = VDict d /\
    d !! "fields" = Some (VList fields) /\
    Forall field_ok fields.
Proof.
  assert (H : validate_template Sample.good_template = Ret tt)
    by (vm_compute; reflexivity).
  split; [exact H|]. exact (accepted_template_is_valid _ H).
Defined.

Lemma field_violation_index i f k :
  field_violation i f k -> violation_index k = Some i.
Proof. by intros []. Qed.

(** X2. What the validator raises on a mapping is a [ValueError], its
    message is the first rule broken, and an index named in the message is
    an index of the list of fields. *)
Theorem rejected_mapping_names_violation d e :
  validate_template (VDict d) = Raise e ->
  exists k,
    e = Exc ValueError k /\
    first_violation d k /\
    forall i,
      violation_index k = Some i ->
      exists fields,
        d !! "fields" = Some (VList fields) /\ (i < length fields)%nat.
Proof.
  intros Hraise.
  destruct (validate_template_raises _ _ Hraise) as (k & -> & Hbad).
  exists k. split; [done|]. split; [done|].
  destruct Hbad as [Hnone | v Hv Hnot | fields j f k Hfields Hj Hbefore Hbad];
    try discriminate.
  intros i Hi. rewrite (field_violation_index _ _ _ Hbad) in Hi.
  injection Hi as <-. exists fields. split; [done|].
  by apply lookup_lt_Some in Hj.
Qed.

Lemma rejected_mapping_names_violation_witness :
  validate_template (VDict Sample.nameless_template) =
    Raise (Exc ValueError (FieldMissingName 1)) /\
  exists k,
    Exc ValueError (FieldMissingName 1) = Exc ValueError k /\
    first_violation Sample.nameless_template k /\
    forall i,
      violation_index k = Some i ->
      exists fields,
        Sample.nameless_template !! "fields" = Some (VList fields) /\
        (i < length fields)%nat.
Proof.
  assert (H : validate_template (VDict Sample.nameless_template) =
              Raise (Exc ValueError (FieldMissingName 1)))
    by (vm_compute; reflexivity).
  split; [exact H|]. exact (rejected_mapping_names_violation _ _ H).
Defined.

(** X3. A template that is no mapping is never accepted.  The validator
    raises: the [ValueError] of the missing [fields] key, when the value is
    a list or a string in which [in] finds no ["fields"]; a [TypeError]
    otherwise. *)
Theorem non_mapping_rejected t :
  (forall d, t <> VDict d) ->
  exists e,
    validate_template t = Raise e /\
    (e = Exc ValueError MissingFieldsKey \/ exc_cls e = TypeError).
Proof.
  intros Hnot. destruct t as [| | | | s |l|d].
  1-4: eexists; split; [reflexivity|by right].
  - unfold validate_template; simpl.
    destruct (String.index 0 "fields" s); eexists; split;
      try reflexivity; [by right|by left].
  - unfold validate_template; simpl.
    destruct (existsb _ l); eexists; split;
      try reflexivity; [by right|by left].
  - by destruct (Hnot d).
Qed.

Lemma non_mapping_rejected_witness :
  (forall d, VList [VStr "name"] <> VDict d) /\
  exists e,
    validate_template (VList [VStr "name"]) = Raise e /\
    (e = Exc ValueError MissingFieldsKey \/ exc_cls e = TypeError).
Proof.
  assert (H : forall d, VList [VStr "name"] <> VDict d) by discriminate.
  split; [exact H|]. exact (non_mapping_rejected _ H).
Defined.

(** ** More on [load_json_file] *)

(** X4. The loader rewrites two kinds of error and no other: an exception
    of [open] or of [json.load] whose class is neither [FileNotFoundError]
    nor [JSONDecodeError] leaves the loader as it was raised. *)
Theorem load_json_file_passes_other_errors w file_path s e :
  (open_read w file_path = inl e \/
   exists content,
     open_read w file_path = inr content /\ json_load w content = inl e) ->
  exc_cls e <> FileNotFoundError ->
  exc_cls e <> JSONDecodeError ->
  load_json_file w file_path s = (Raise e, log s [Open file_path]).
Proof.
  intros Hfrom Hnf Hnd.
  unfold load_json_file, try_except, bind, call, emit, raise, ret, lift, log.
  simpl.
  destruct Hfrom as [Hopen | (content & Hopen & Hparse)].
  - rewrite Hopen; simpl. by destruct e as [[] m].
  - rewrite Hopen; simpl. rewrite Hparse; simpl. by destruct e as [[] m].
Qed.

Lemma load_json_file_passes_other_errors_witness :
  (open_read Cases.locked "good.json" = inl Cases.denied \/
   exists content,
     open_read Cases.locked "good.json" = inr content /\
     json_load Cases.locked content = inl Cases.denied) /\
  exc_cls Cases.denied <> FileNotFoundError /\
  exc_cls Cases.denied <> JSONDecodeError /\
  load_json_file Cases.locked "good.json" initial =
    (Raise Cases.denied, log initial [Open "good.json"]).
Proof.
  assert (H1 : open_read Cases.locked "good.json" = inl Cases.denied \/
               exists content,
                 open_read Cases.locked "good.json" = inr content /\
                 json_load Cases.locked content = inl Cases.denied)
    by (left; reflexivity).
  assert (H2 : exc_cls Cases.denied <> FileNotFoundError) by discriminate.
  assert (H3 : exc_cls Cases.denied <> JSONDecodeError) by discriminate.
  split; [exact H1|]. split; [exact H2|]. split; [exact H3|].
  exact (load_json_file_passes_other_errors _ _ initial _ H1 H2 H3).
Defined.

(** X5. Whatever the file system and the decoder answer, a call of the
    loader opens its file once and does nothing else to the outside or to
    the store; it returns or raises, and never leaves the process. *)
Theorem load_json_file_one_open w file_path s :
  exists r,
    load_json_file w file_path s = (r, log s [Open file_path]) /\
    ((exists v, r = Ret v) \/ (exists e, r = Raise e)).
Proof.
  destruct (load_json_file_opens_once w file_path s) as (r & Hload & Hw & Hx).
  exists r. split; [done|].
  destruct r as [v|e|c|]; [left|right| |]; eauto.
  - by destruct (Hx c).
  - done.
Qed.

(** ** More on [merge_data] *)

(** X6. Merging with overrides changes neither argument: the objects of
    [E] and of [O] hold what they held, the result is an object that was
    not in the store, every other object is as it was, and nothing is done
    to the outside. *)
Theorem merge_keeps_arguments s e o E O :
  heap s !! e = Some E ->
  heap s !! o = Some O ->
  exists merged s',
    merge_data e (Some o) s = (Ret merged, s') /\
    heap s !! merged = None /\
    heap s' !! e = Some E /\
    heap s' !! o = Some O /\
    (forall l, l <> merged -> heap s' !! l = heap s !! l) /\
    trace s' = trace s.
Proof.
  intros He Ho. eexists _, _. split; [by apply merge_data_some|]. simpl.
  assert (Hne : e <> fresh (dom (heap s))) by by eapply fresh_ne_allocated.
  assert (Hno : o <> fresh (dom (heap s))) by by eapply fresh_ne_allocated.
  split; [apply fresh_not_allocated|].
  split; [by rewrite lookup_insert_ne|].
  split; [by rewrite lookup_insert_ne|].
  split; [|done]. intros l Hl. by rewrite lookup_insert_ne.
Qed.

Lemma merge_keeps_arguments_witness :
  heap Sample.two_dicts !! 0%nat = Some Sample.extracted /\
  heap Sample.two_dicts !! 1%nat = Some Sample.overrides /\
  exists merged s',
    merge_data 0%nat (Some 1%nat) Sample.two_dicts = (Ret merged, s') /\
    heap Sample.two_dicts !! merged = None /\
    heap s' !! 0%nat = Some Sample.extracted /\
    heap s' !! 1%nat = Some Sample.overrides /\
    (forall l, l <> merged -> heap s' !! l = heap Sample.two_dicts !! l) /\
    trace s' = trace Sample.two_dicts.
Proof.
  assert (H0 : heap Sample.two_dicts !! 0%nat = Some Sample.extracted)
    by (vm_compute; reflexivity).
  assert (H1 : heap Sample.two_dicts !! 1%nat = Some Sample.overrides)
    by (vm_compute; reflexivity).
  split; [exact H0|]. split; [exact H1|].
  exact (merge_keeps_arguments Sample.two_dicts 0%nat 1%nat _ _ H0 H1).
Defined.

(** X7. Two rounds of overrides are one round with the overrides merged:
    applying [O1] and then [O2] to [E] gives the entries that applying to
    [E] the merge of [O1] with [O2] gives. *)
Theorem merge_in_two_rounds s e o1 o2 E O1 O2 :
  heap s !! e = Some E ->
  heap s !! o1 = Some O1 ->
  heap s !! o2 = Some O2 ->
  exists R,
    (exists m1 s1 m2 s2,
       merge_data e (Some o1) s = (Ret m1, s1) /\
       merge_data m1 (Some o2) s1 = (Ret m2, s2) /\
       heap s2 !! m2 = Some R) /\
    (exists n1 t1 n2 t2,
       merge_data o1 (Some o2) s = (Ret n1, t1) /\
       merge_data e (Some n1) t1 = (Ret n2, t2) /\
       heap t2 !! n2 = Some R).
Proof.
  intros He H1 H2.
  assert (Hne : e <> fresh (dom (heap s))) by by eapply fresh_ne_allocated.
  assert (Hn2 : o2 <> fresh (dom (heap s))) by by eapply fresh_ne_allocated.
  exists (O2 ∪ (O1 ∪ E)). split.
  - eexists _, _, _, _. split; [by apply merge_data_some|]. split.
    + apply merge_data_some with (E := O1 ∪ E) (O := O2); simpl.
      * apply lookup_insert_eq.
      * by rewrite lookup_insert_ne.
    + simpl. apply lookup_insert_eq.
  - eexists _, _, _, _. split; [by apply merge_data_some|]. split.
    + apply merge_data_some with (E := E) (O := O2 ∪ O1); simpl.
      * by rewrite lookup_insert_ne.
      * apply lookup_insert_eq.
    + simpl. rewrite lookup_insert_eq. by rewrite (assoc_L (∪)).
Qed.

Lemma merge_in_two_rounds_witness :
  heap Cases.three_dicts !! 0%nat = Some Sample.extracted /\
  heap Cases.three_dicts !! 1%nat = Some Sample.overrides /\
  heap Cases.three_dicts !! 2%nat = Some Cases.later /\
  exists R,
    (exists m1 s1 m2 s2,
       merge_data 0%nat (Some 1%nat) Cases.three_dicts = (Ret m1, s1) /\
       merge_data m1 (Some 2%nat) s1 = (Ret m2, s2) /\
       heap s2 !! m2 = Some R) /\
    (exists n1 t1 n2 t2,
       merge_data 1%nat (Some 2%nat) Cases.three_dicts = (Ret n1, t1) /\
       merge_data 0%nat (Some n1) t1 = (Ret n2, t2) /\
       heap t2 !! n2 = Some R).
Proof.
  assert (H0 : heap Cases.three_dicts !! 0%nat = Some Sample.extracted)
    by (vm_compute; reflexivity).
  assert (H1 : heap Cases.three_dicts !! 1%nat = Some Sample.overrides)
    by (vm_compute; reflexivity).
  assert (H2 : heap Cases.three_dicts !! 2%nat = Some Cases.later)
    by (vm_compute; reflexivity).
  split; [exact H0|]. split; [exact H1|]. split; [exact H2|].
  exact (merge_in_two_rounds Cases.three_dicts 0%nat 1%nat 2%nat _ _ _
           H0 H1 H2).
Defined.

(** ** The steps of [main], one by one *)

Ltac run_monad :=
  unfold try_except, bind, call, print, emit, raise, ret, lift, sys_exit,
    alloc, load, log;
  simpl.


(** Step 2 with no matcher: the loader, on the template path, then the
    validator. *)
Lemma load_template_direct w args s :
  match_template w = None ->
  exists r,
    load_json_file w (template args) (log s [Print Step2; Print LoadingFromPath])
      = (r, log s [Print Step2; Print LoadingFromPath; Open (template args)]) /\
    match r with
    | Ret t =>
        match validate_template t with
        | Ret _ =>
            exists fields,
              py_getitem t "fields" = Ret (VList fields) /\
              load_template w args s =
                (Ret t,
                 log s [Print Step2; Print LoadingFromPath;
                        Open (template args);
                        Print (TemplateLoaded (length fields))])
        | Raise v =>
            load_template w args s =
              (Exit 1,
               log s [Print Step2; Print LoadingFromPath;
                      Open (template args);
                      Print (ErrTemplateLoad (exc_msg v))])
        | _ => False
        end
    | Raise le =>
        load_template w args s =
          (Exit 1,
           log s [Print Step2; Print LoadingFromPath; Open (template args);
                  Print (ErrTemplateLoad (exc_msg le))])
    | _ => False
    end.
Proof.
  intros Hm.
  destruct (load_json_file_opens_once w (template args)
              (log s [Print Step2; Print LoadingFromPath]))
    as (r & Hload & Hw & Hx).
  exists r. rewrite Hload, log_log. split; [done|].
  revert Hload. unfold load_template. run_monad. rewrite Hm; simpl.
  rewrite <- !app_assoc; simpl. intros ->.
  destruct r as [t|le|c|]; simpl; [| |by destruct (Hx c)|done].
  - destruct (validate_template_total t) as [Hvalid | [v Hinvalid]].
    + destruct (validated_has_fields _ Hvalid) as [fields Hfields].
      rewrite Hvalid; simpl. exists fields. split; [done|].
      rewrite Hfields; simpl. by rewrite <- !app_assoc.
    + rewrite Hinvalid; simpl. by rewrite <- !app_assoc.
  - by rewrite <- !app_assoc.
Qed.

(** Step 2 returns a template that has passed validation, or leaves the
    process; either way the store is as it was, and the step has printed,
    called the matcher and opened files, and nothing else. *)
Lemma load_template_cases w args s :
  exists evs,
    Forall (fun ev => is_acquire ev = true) evs /\
    ((exists t,
        load_template w args s = (Ret t, log s evs) /\
        validate_template t = Ret tt) \/
     load_template w args s = (Exit 1, log s evs)).
Proof.
  destruct (match_template w) as [matcher|] eqn:Hm.
  - destruct (matcher (image args)) as [e|t] eqn:Ht.
    + destruct (load_template_fallback w args s matcher e Hm Ht)
        as (r & _ & Hstep).
      destruct r as [t|le|c|]; try done.
      * destruct (validate_template t) as [[]|v|c|] eqn:Hv; try done.
        -- destruct Hstep as (fields & _ & ->). eexists. split.
           2: { left. by exists t. }
           unfold fallback_events. by repeat constructor.
        -- rewrite Hstep. eexists. split.
           2: { by right. }
           unfold fallback_events. by repeat constructor.
      * rewrite Hstep. eexists. split.
        2: { by right. }
        unfold fallback_events. by repeat constructor.
    + destruct (validate_template_total t) as [Hvalid | [v Hinvalid]].
      * destruct (validated_has_fields _ Hvalid) as [fields Hfields].
        rewrite (load_template_matched_valid _ _ _ _ _ _ Hm Ht Hvalid Hfields).
        eexists. split.
        2: { left. by exists t. }
        unfold matched_events. by repeat constructor.
      * rewrite (load_template_matched_invalid _ _ _ _ _ _ Hm Ht Hinvalid).
        eexists. split.
        2: { by right. }
        unfold matched_events. by repeat constructor.
  - destruct (load_template_direct w args s Hm) as (r & _ & Hstep).
    destruct r as [t|le|c|]; try done.
    + destruct (validate_template t) as [[]|v|c|] eqn:Hv; try done.
      * destruct Hstep as (fields & _ & ->). eexists. split.
        2: { left. by exists t. }
        by repeat constructor.
      * rewrite Hstep. eexists. split.
        2: { by right. }
        by repeat constructor.
    + rewrite Hstep. eexists. split.
      2: { by right. }
      by repeat constructor.
Qed.

(** Step 3, the extraction succeeding. *)
Lemma extract_data_returns w args t s E :
  extract_data_from_image w (image args) t = inr E ->
  extract_data w args t s =
    (Ret (fresh (dom (heap s))),
     State (<[fresh (dom (heap s)) := VStr <$> E]> (heap s))
       (trace s ++
        [Print Step3; ExtractData (image args) t;
         Print (ExtractionCompleted (size E));
         Print (ExtractedFields (display_value <$> E))])).
Proof.
  intros Hx. unfold extract_data. run_monad. rewrite Hx; simpl.
  by rewrite <- !app_assoc.
Qed.

(** Step 3, the extraction failing. *)
Lemma extract_data_fails w args t s e :
  extract_data_from_image w (image args) t = inl e ->
  extract_data w args t s =
    (Exit 1,
     log s [Print Step3; ExtractData (image args) t;
            Print (ErrExtraction (exc_msg e))]).
Proof.
  intros Hx. unfold extract_data. run_monad. rewrite Hx; simpl.
  by rewrite <- !app_assoc.
Qed.

(** Step 4 with no data path, or an empty one. *)
Lemma load_overrides_absent w args s :
  data args = None \/ data args = Some "" ->
  load_overrides w args s =
    (Ret None, log s [Print Step4; Print NoOverrideData]).
Proof.
  unfold load_overrides.
  intros [-> | ->]; run_monad; by rewrite <- !app_assoc.
Qed.

(** Step 4 with a data path, by what the loader returns. *)
Lemma load_overrides_given w args s a p :
  data args = Some (String a p) ->
  exists r,
    load_json_file w (String a p) (log s [Print Step4]) =
      (r, log s [Print Step4; Open (String a p)]) /\
    match r with
    | Ret (VDict entries) =>
        load_overrides w args s =
          (Ret (Some (fresh (dom (heap s)))),
           State (<[fresh (dom (heap s)) := entries]> (heap s))
             (trace s ++
              [Print Step4; Open (String a p);
               Print (LoadedOverrides (size entries));
               Print (OverrideValues entries)]))
    | Ret v =>
        exists evs m,
          load_overrides w args s =
            (Exit 1,
             log s ([Print Step4; Open (String a p)] ++ evs ++
                    [Print (ErrOverrideLoad m)])) /\
          Forall (fun ev => is_check ev = true) evs /\
          (m = NoLen (type_name v) \/ m = NoAttribute (type_name v) "items")
    | Raise e =>
        load_overrides w args s =
          (Exit 1,
           log s [Print Step4; Open (String a p);
                  Print (ErrOverrideLoad (exc_msg e))])
    | _ => False
    end.
Proof.
  intros Hd.
  destruct (load_json_file_opens_once w (String a p) (log s [Print Step4]))
    as (r & Hload & Hw & Hx).
  exists r. rewrite Hload, log_log. split; [done|].
  revert Hload. unfold load_overrides. rewrite Hd. run_monad. intros ->.
  destruct r as [v|e|c|]; simpl; [| |by destruct (Hx c)|done].
  - destruct v; simpl; rewrite <- ?app_assoc; simpl;
      try (eexists [], _; split; [reflexivity|];
           split; [constructor|by left]);
      try (eexists [_], _; split; [reflexivity|];
           split; [by repeat constructor|by right]).
    reflexivity.
  - by rewrite <- !app_assoc.
Qed.

Lemma truthy_dict_allocated s o entries :
  heap s !! o = Some entries ->
  truthy_dict (Some o) s = (Ret (negb (bool_decide (entries = ∅))), s).
Proof. intros Ho. unfold truthy_dict. run_monad. by rewrite Ho. Qed.

(** Step 5: one call of [fill_form], with the entries of the final data. *)
Lemma fill_step w args t l s entries :
  heap s !! l = Some entries ->
  fill w args t l s =
    match fill_form w (image args) t entries with
    | inr a =>
        (Ret a,
         log s [Print Step5; FillForm (image args) t entries; Print FormFilled])
    | inl e =>
        (Exit 1,
         log s [Print Step5; FillForm (image args) t entries;
                Print (ErrFill (exc_msg e))])
    end.
Proof.
  intros Hl. unfold fill. run_monad. rewrite Hl; simpl.
  destruct (fill_form w (image args) t entries); simpl;
    by rewrite <- !app_assoc.
Qed.

(** Step 6: the directory first; the saving only when it is there. *)
Lemma save_step w args a s :
  save w args a s =
    match mkdir w (path_parent w (output args)) with
    | inl e =>
        (Exit 1,
         log s [Print Step6; Mkdir (path_parent w (output args));
                Print (ErrSave (exc_msg e))])
    | inr _ =>
        match save_filled_form w a (path_str w (output args)) with
        | inl e =>
            (Exit 1,
             log s [Print Step6; Mkdir (path_parent w (output args));
                    SaveFilledForm a (path_str w (output args));
                    Print (ErrSave (exc_msg e))])
        | inr _ =>
            (Ret tt,
             log s [Print Step6; Mkdir (path_parent w (output args));
                    SaveFilledForm a (path_str w (output args));
                    Print (SavedTo (path_str w (output args)))])
        end
    end.
Proof.
  unfold save. run_monad.
  destruct (mkdir w (path_parent w (output args))); simpl;
    [by rewrite <- !app_assoc|].
  destruct (save_filled_form w a (path_str w (output args))); simpl;
    by rewrite <- !app_assoc.
Qed.

(** The run from the merge on.  With the extracted entries [E] in the
    store and the overrides [Ov] (none counting as empty), [fill_form] is
    called once, with [Ov] over [E]; [save_filled_form] is called only
    with what [fill_form] returned, after the directory was made; and the
    run returns when the saving returned, and leaves with 1 otherwise. *)
Lemma main_from_merge w args s0 s1 s2 s3 s4 t l ov E Ov :
  validate_inputs w args (log s0 [Print Starting]) = (Ret tt, s1) ->
  load_template w args s1 = (Ret t, s2) ->
  extract_data w args t s2 = (Ret l, s3) ->
  load_overrides w args s3 = (Ret ov, s4) ->
  heap s4 !! l = Some E ->
  (ov = None /\ Ov = ∅ \/ exists o, ov = Some o /\ heap s4 !! o = Some Ov) ->
  exists r evs h,
    main w args s0 = (r, State h (trace s4 ++ evs)) /\
    (stage_calls evs = [FillForm (image args) t (Ov ∪ E)] /\ r = Exit 1 \/
     exists a,
       fill_form w (image args) t (Ov ∪ E) = inr a /\
       mkdir w (path_parent w (output args)) = inr tt /\
       stage_calls evs =
         [FillForm (image args) t (Ov ∪ E);
          SaveFilledForm a (path_str w (output args))] /\
       (save_filled_form w a (path_str w (output args)) = inr tt /\
        r = Ret tt \/
        (exists e, save_filled_form w a (path_str w (output args)) = inl e) /\
        r = Exit 1)).
Proof.
  unfold log. intros Hin Ht Hx Ho Hl Hov.
  assert (Hmerge : merge_data l ov s4 =
    (Ret (fresh (dom (heap s4))),
     State (<[fresh (dom (heap s4)) := Ov ∪ E]> (heap s4)) (trace s4))).
  { destruct Hov as [[-> ->] | (o & -> & Hov)].
    - rewrite (left_id_L ∅ (∪)). by apply merge_data_none.
    - by apply merge_data_some. }
  assert (Htruthy : exists b,
    forall h tr, (forall o D, heap s4 !! o = Some D -> h !! o = Some D) ->
      truthy_dict ov (State h tr) = (Ret b, State h tr) /\
      (b = true -> exists o D, ov = Some o /\ h !! o = Some D)).
  { destruct Hov as [[-> ->] | (o & -> & Hov)].
    - exists false. intros h tr _. split; [done|discriminate].
    - eexists. intros h tr Hkeep. split.
      + apply truthy_dict_allocated. simpl. by apply Hkeep.
      + intros _. exists o, Ov. split; [done|by apply Hkeep]. }
  destruct Htruthy as [b Htruthy].
  set (m := fresh (dom (heap s4))) in *.
  set (h := <[m := Ov ∪ E]> (heap s4)).
  assert (Hkeep : forall o D, heap s4 !! o = Some D -> h !! o = Some D).
  { intros o D Hod. unfold h. rewrite lookup_insert_ne; [done|].
    intros <-. unfold m in Hod. by rewrite fresh_not_allocated in Hod. }
  assert (Hm : h !! m = Some (Ov ∪ E)) by apply lookup_insert_eq.
  unfold main, bind at 1, print, emit. simpl.
  unfold bind at 1. rewrite Hin.
  unfold bind at 1. rewrite Ht.
  unfold bind at 1. rewrite Hx.
  unfold bind at 1. rewrite Ho.
  unfold bind at 1. rewrite Hmerge. fold h.
  unfold bind at 1, load at 1. simpl. rewrite Hm.
  unfold bind at 1. simpl.
  unfold bind at 1.
  rewrite (fill_step w args t m (State h _) (Ov ∪ E) Hm).
  destruct (fill_form w (image args) t (Ov ∪ E)) as [e|a] eqn:Hfill.
  { eexists _, _, _. unfold log; simpl. rewrite <- !app_assoc; simpl.
    split; [reflexivity|]. by left. }
  unfold bind at 1. rewrite save_step.
  destruct (mkdir w (path_parent w (output args))) as [e|[]] eqn:Hmk.
  { eexists _, _, _. unfold log; simpl. rewrite <- !app_assoc; simpl.
    split; [reflexivity|]. by left. }
  destruct (save_filled_form w a (path_str w (output args))) as [e|[]]
    eqn:Hsave.
  { eexists _, _, _. unfold log; simpl. rewrite <- !app_assoc; simpl.
    split; [reflexivity|]. right. exists a.
    split; [done|]. split; [done|]. split; [done|].
    right. split; [by eexists|done]. }
  unfold log; simpl.
  repeat (unfold bind at 1; simpl).
  match goal with
  | |- context [truthy_dict ov (State ?h' ?tr)] =>
      destruct (Htruthy h' tr Hkeep) as [-> Hb]
  end.
  destruct b.
  - destruct (Hb eq_refl) as (o & D & -> & HD).
    unfold bind, load; simpl. rewrite HD; simpl.
    rewrite <- !app_assoc; simpl. eexists _, _, _.
    split; [reflexivity|]. right. exists a.
    split; [done|]. split; [done|]. split; [done|]. by left.
  - eexists _, _, _. rewrite <- !app_assoc; simpl.
    split; [reflexivity|]. right. exists a.
    split; [done|]. split; [done|]. split; [done|]. by left.
Qed.

(** ** The run as a whole *)

Lemma stage_calls_app tr tr' :
  stage_calls (tr ++ tr') = (stage_calls tr ++ stage_calls tr')%list.
Proof. unfold stage_calls. apply filter_app. Qed.

Lemma stage_calls_none evs :
  Forall (fun ev => is_stage_call ev = false) evs -> stage_calls evs = [].
Proof.
  unfold stage_calls. induction 1 as [|ev evs Hev _ IH]; [done|].
  rewrite filter_cons_False; [done|]. by rewrite Hev.
Qed.

Lemma stage_calls_checks evs :
  Forall (fun ev => is_check ev = true) evs -> stage_calls evs = [].
Proof.
  intros Hall. apply stage_calls_none.
  eapply Forall_impl; [exact Hall|]. by intros [].
Qed.


Lemma main_stops_at_inputs w args s0 c s1 :
  validate_inputs w args (log s0 [Print Starting]) = (Exit c, s1) ->
  main w args s0 = (Exit c, s1).
Proof.
  unfold log. intros Hin.
  unfold main, bind at 1, print, emit. simpl.
  unfold bind at 1. by rewrite Hin.
Qed.

Lemma main_stops_at_extraction w args s0 s1 s2 t c s3 :
  validate_inputs w args (log s0 [Print Starting]) = (Ret tt, s1) ->
  load_template w args s1 = (Ret t, s2) ->
  extract_data w args t s2 = (Exit c, s3) ->
  main w args s0 = (Exit c, s3).
Proof.
  unfold log. intros Hin Ht Hx.
  unfold main, bind at 1, print, emit. simpl.
  unfold bind at 1. rewrite Hin.
  unfold bind at 1. rewrite Ht.
  unfold bind at 1. by rewrite Hx.
Qed.

Lemma main_stops_at_overrides w args s0 s1 s2 s3 t l c s4 :
  validate_inputs w args (log s0 [Print Starting]) = (Ret tt, s1) ->
  load_template w args s1 = (Ret t, s2) ->
  extract_data w args t s2 = (Ret l, s3) ->
  load_overrides w args s3 = (Exit c, s4) ->
  main w args s0 = (Exit c, s4).
Proof.
  unfold log. intros Hin Ht Hx Ho.
  unfold main, bind at 1, print, emit. simpl.
  unfold bind at 1. rewrite Hin.
  unfold bind at 1. rewrite Ht.
  unfold bind at 1. rewrite Hx.
  unfold bind at 1. by rewrite Ho.
Qed.




(** ** The steps within the run *)

(** X10. When an input does not exist the run ends in the first step: the
    process exits with 1, the last line printed names the first missing
    input (image, then template, then data), and up to there the run has
    only printed and tested for existence: no file was opened and no
    module was called. *)
Theorem missing_input_stops_run w args s l :
  first_missing w args = Some l ->
  exists evs,
    main w args s = (Exit 1, log s (evs ++ [Print l])) /\
    Forall (fun ev => is_check ev = true) evs.
Proof.
  intros Hmiss.
  assert (Hin : exists evs,
    validate_inputs w args (log s [Print Starting]) =
      (Exit 1, log s (Print Starting :: evs ++ [Print l])) /\
    Forall (fun ev => is_check ev = true) evs).
  { revert Hmiss. unfold first_missing, validate_inputs. run_monad.
    destruct (os_path_exists w (image args)); simpl.
    2: { intros [= <-]. rewrite <- !app_assoc; simpl.
         exists [Print Step1; PathExists (image args)].
         split; [reflexivity|by repeat constructor]. }
    destruct (os_path_exists w (template args)); simpl.
    2: { intros [= <-]. rewrite <- !app_assoc; simpl.
         exists [Print Step1; PathExists (image args);
                 PathExists (template args)].
         split; [reflexivity|by repeat constructor]. }
    destruct (data args) as [[|a p]|]; simpl; try discriminate.
    destruct (os_path_exists w (String a p)); simpl; [discriminate|].
    intros [= <-]. rewrite <- !app_assoc; simpl.
    exists [Print Step1; PathExists (image args);
            PathExists (template args); PathExists (String a p)].
    split; [reflexivity|by repeat constructor]. }
  destruct Hin as (evs & Hin & Hall).
  exists (Print Starting :: evs). split.
  - by apply main_stops_at_inputs.
  - by constructor.
Qed.

Lemma missing_input_stops_run_witness :
  first_missing Cases.empty_disk (Sample.args "good.json") =
    Some (ErrImageNotFound "form.png") /\
  exists evs,
    main Cases.empty_disk (Sample.args "good.json") initial =
      (Exit 1, log initial (evs ++ [Print (ErrImageNotFound "form.png")])) /\
    Forall (fun ev => is_check ev = true) evs.
Proof.
  assert (H : first_missing Cases.empty_disk (Sample.args "good.json") =
              Some (ErrImageNotFound "form.png")) by reflexivity.
  split; [exact H|].
  exact (missing_input_stops_run _ _ initial _ H).
Defined.

(** X11. A template that the template step returns has passed validation,
    whichever way it came (matcher, fallback or template path), and the
    step leaves the store as it was. *)
Theorem returned_template_is_validated w args s t s' :
  load_template w args s = (Ret t, s') ->
  validate_template t = Ret tt /\ heap s' = heap s.
Proof.
  intros Hstep.
  destruct (load_template_cases w args s)
    as (evs & _ & [(t0 & Ht0 & Hvalid) | Hexit]).
  - rewrite Ht0 in Hstep. by injection Hstep as <- <-.
  - rewrite Hexit in Hstep. discriminate.
Qed.

Lemma returned_template_is_validated_witness :
  load_template Sample.plain (Sample.args "good.json") initial =
    (Ret Sample.good_template,
     snd (load_template Sample.plain (Sample.args "good.json") initial)) /\
  validate_template Sample.good_template = Ret tt /\
  heap (snd (load_template Sample.plain (Sample.args "good.json") initial)) =
    heap initial.
Proof.
  assert (H : load_template Sample.plain (Sample.args "good.json") initial =
    (Ret Sample.good_template,
     snd (load_template Sample.plain (Sample.args "good.json") initial)))
    by (vm_compute; reflexivity).
  split; [exact H|].
  exact (returned_template_is_validated _ _ _ _ _ H).
Defined.

(** X12. With no matcher to call, the template step goes to the template
    path at once: the matcher is not called, the loader is called once,
    and a template read from the path that passes validation is the one
    returned. *)
Theorem no_matcher_loads_template_path w args s :
  match_template w = None ->
  matcher_calls (trace (snd (load_template w args s))) =
    matcher_calls (trace s) /\
  loader_calls (trace (snd (load_template w args s))) =
    S (loader_calls (trace s)) /\
  forall content t,
    open_read w (template args) = inr content ->
    json_load w content = inr t ->
    validate_template t = Ret tt ->
    fst (load_template w args s) = Ret t.
Proof.
  intros Hm.
  destruct (load_template_direct w args s Hm) as (r & Hload & Hstep).
  assert (Htrace : exists l,
    trace (snd (load_template w args s)) =
      (trace s ++ [Print Step2; Print LoadingFromPath; Open (template args);
                   Print l])%list).
  { destruct r as [t|le|c|]; try done.
    - destruct (validate_template t) as [[]|v|c|]; try done.
      + destruct Hstep as (fields & _ & ->). by eexists.
      + rewrite Hstep. by eexists.
    - rewrite Hstep. by eexists. }
  destruct Htrace as [l Htrace]. rewrite Htrace.
  rewrite matcher_calls_app, loader_calls_app.
  split; [rewrite Nat.add_comm; reflexivity|].
  split; [rewrite Nat.add_comm; reflexivity|].
  intros content t Hopen Hparse Hvalid.
  rewrite (load_json_file_parsed _ _ _ _ _ Hopen Hparse), log_log in Hload.
  injection Hload as <-. rewrite Hvalid in Hstep.
  destruct Hstep as (fields & _ & ->). done.
Qed.

Lemma no_matcher_loads_template_path_witness :
  match_template Sample.plain = None /\
  matcher_calls
    (trace (snd (load_template Sample.plain (Sample.args "good.json")
                   initial))) = matcher_calls (trace initial) /\
  loader_calls
    (trace (snd (load_template Sample.plain (Sample.args "good.json")
                   initial))) = S (loader_calls (trace initial)) /\
  fst (load_template Sample.plain (Sample.args "good.json") initial) =
    Ret Sample.good_template.
Proof.
  split; [reflexivity|].
  destruct (no_matcher_loads_template_path Sample.plain
              (Sample.args "good.json") initial eq_refl)
    as (Hmatcher & Hloader & Hret).
  split; [exact Hmatcher|]. split; [exact Hloader|].
  apply (Hret "GOOD"); vm_compute; reflexivity.
Defined.

(** X13. When the extraction raises, the run ends there: the process
    exits with 1 after the line of the extraction error; the data file is
    not opened, and neither [fill_form] nor [save_filled_form] is
    called. *)
Theorem extraction_failure_stops_run w args s0 s1 s2 t e :
  validate_inputs w args (log s0 [Print Starting]) = (Ret tt, s1) ->
  load_template w args s1 = (Ret t, s2) ->
  extract_data_from_image w (image args) t = inl e ->
  main w args s0 =
    (Exit 1,
     log s2 [Print Step3; ExtractData (image args) t;
             Print (ErrExtraction (exc_msg e))]).
Proof.
  intros Hin Ht Hx.
  apply (main_stops_at_extraction _ _ _ _ _ _ _ _ Hin Ht).
  by apply extract_data_fails.
Qed.

Lemma extraction_failure_stops_run_witness :
  validate_inputs Cases.blind (Sample.args "good.json")
    (log initial [Print Starting]) =
    (Ret tt, Cases.at_template Cases.blind (Sample.args "good.json")) /\
  load_template Cases.blind (Sample.args "good.json")
    (Cases.at_template Cases.blind (Sample.args "good.json")) =
    (Ret Sample.good_template,
     Cases.at_extraction Cases.blind (Sample.args "good.json")) /\
  extract_data_from_image Cases.blind (image (Sample.args "good.json"))
    Sample.good_template = inl Cases.ocr_failed /\
  main Cases.blind (Sample.args "good.json") initial =
    (Exit 1,
     log (Cases.at_extraction Cases.blind (Sample.args "good.json"))
       [Print Step3; ExtractData "form.png" Sample.good_template;
        Print (ErrExtraction (exc_msg Cases.ocr_failed))]).
Proof.
  assert (H1 : validate_inputs Cases.blind (Sample.args "good.json")
      (log initial [Print Starting]) =
      (Ret tt, Cases.at_template Cases.blind (Sample.args "good.json")))
    by (vm_compute; reflexivity).
  assert (H2 : load_template Cases.blind (Sample.args "good.json")
      (Cases.at_template Cases.blind (Sample.args "good.json")) =
      (Ret Sample.good_template,
       Cases.at_extraction Cases.blind (Sample.args "good.json")))
    by (vm_compute; reflexivity).
  assert (H3 : extract_data_from_image Cases.blind
      (image (Sample.args "good.json")) Sample.good_template =
      inl Cases.ocr_failed) by reflexivity.
  split; [exact H1|]. split; [exact H2|]. split; [exact H3|].
  exact (extraction_failure_stops_run _ _ _ _ _ _ _ H1 H2 H3).
Defined.

(** X14. A data file that holds JSON which is no object ends the run in
    the override step: [len] or [items()] raises on it, the process exits
    with 1 after the line of the override error, and [fill_form] is not
    called; the extraction was called, once. *)
Theorem overrides_not_object_stops_run
    w args s0 s1 s2 t E a p content v :
  validate_inputs w args (log s0 [Print Starting]) = (Ret tt, s1) ->
  load_template w args s1 = (Ret t, s2) ->
  extract_data_from_image w (image args) t = inr E ->
  data args = Some (String a p) ->
  open_read w (String a p) = inr content ->
  json_load w content = inr v ->
  (forall d, v <> VDict d) ->
  exists evs m h,
    main w args s0 =
      (Exit 1, State h (trace s2 ++ evs ++ [Print (ErrOverrideLoad m)])) /\
    (m = NoLen (type_name v) \/ m = NoAttribute (type_name v) "items") /\
    stage_calls evs = [ExtractData (image args) t].
Proof.
  intros Hin Ht Hx Hd Hopen Hparse Hnot.
  pose proof (extract_data_returns w args t s2 E Hx) as Hext.
  set (ev3 := [Print Step3; ExtractData (image args) t;
               Print (ExtractionCompleted (size E));
               Print (ExtractedFields (display_value <$> E))]) in *.
  set (s3 := State (<[fresh (dom (heap s2)) := VStr <$> E]> (heap s2))
               (trace s2 ++ ev3)) in *.
  destruct (load_overrides_given w args s3 a p Hd) as (r & Hload & Hstep).
  rewrite (load_json_file_parsed _ _ _ _ _ Hopen Hparse), log_log in Hload.
  injection Hload as <-.
  assert (Hexit : exists evs m,
    load_overrides w args s3 =
      (Exit 1,
       log s3 ([Print Step4; Open (String a p)] ++ evs ++
               [Print (ErrOverrideLoad m)])) /\
    Forall (fun ev => is_check ev = true) evs /\
    (m = NoLen (type_name v) \/ m = NoAttribute (type_name v) "items")).
  { destruct v; try exact Hstep. by destruct (Hnot d). }
  destruct Hexit as (evs & m & Ho & Hc & Hm).
  exists (ev3 ++ [Print Step4; Open (String a p)] ++ evs)%list, m.
  eexists. split.
  - rewrite (main_stops_at_overrides _ _ _ _ _ _ _ _ _ _ Hin Ht Hext Ho).
    unfold s3, log; simpl. by rewrite <- !app_assoc.
  - split; [done|].
    rewrite !stage_calls_app, (stage_calls_checks _ Hc). done.
Qed.

Lemma overrides_not_object_stops_run_witness :
  validate_inputs Cases.fine (Sample.args_with_data "good.json" "array.json")
    (log initial [Print Starting]) =
    (Ret tt,
     Cases.at_template Cases.fine
       (Sample.args_with_data "good.json" "array.json")) /\
  load_template Cases.fine (Sample.args_with_data "good.json" "array.json")
    (Cases.at_template Cases.fine
       (Sample.args_with_data "good.json" "array.json")) =
    (Ret Sample.good_template,
     Cases.at_extraction Cases.fine
       (Sample.args_with_data "good.json" "array.json")) /\
  open_read Cases.fine "array.json" = inr "ARRAY" /\
  json_load Cases.fine "ARRAY" = inr (VList [VStr "J. Doe"]) /\
  exists evs m h,
    main Cases.fine (Sample.args_with_data "good.json" "array.json") initial =
      (Exit 1,
       State h
         (trace (Cases.at_extraction Cases.fine
                   (Sample.args_with_data "good.json" "array.json")) ++
          evs ++ [Print (ErrOverrideLoad m)])) /\
    (m = NoLen "list" \/ m = NoAttribute "list" "items") /\
    stage_calls evs = [ExtractData "form.png" Sample.good_template].
Proof.
  assert (H1 : validate_inputs Cases.fine
      (Sample.args_with_data "good.json" "array.json")
      (log initial [Print Starting]) =
      (Ret tt,
       Cases.at_template Cases.fine
         (Sample.args_with_data "good.json" "array.json")))
    by (vm_compute; reflexivity).
  assert (H2 : load_template Cases.fine
      (Sample.args_with_data "good.json" "array.json")
      (Cases.at_template Cases.fine
         (Sample.args_with_data "good.json" "array.json")) =
      (Ret Sample.good_template,
       Cases.at_extraction Cases.fine
         (Sample.args_with_data "good.json" "array.json")))
    by (vm_compute; reflexivity).
  assert (H3 : open_read Cases.fine "array.json" = inr "ARRAY")
    by reflexivity.
  assert (H4 : json_load Cases.fine "ARRAY" = inr (VList [VStr "J. Doe"]))
    by reflexivity.
  split; [exact H1|]. split; [exact H2|]. split; [exact H3|].
  split; [exact H4|].
  refine (overrides_not_object_stops_run Cases.fine
            (Sample.args_with_data "good.json" "array.json") initial _ _
            Sample.good_template Cases.jane _ _ "ARRAY" _
            H1 H2 eq_refl eq_refl H3 H4 _).
  discriminate.
Defined.

(** The run from the extraction on, the extraction and the override step
    having returned: the extraction is called with the template, then
    [fill_form] with the same template and the overrides over the
    extracted entries. *)
Lemma main_fills_with w args s0 s1 s2 s4 t E ov Ov ev4 :
  validate_inputs w args (log s0 [Print Starting]) = (Ret tt, s1) ->
  load_template w args s1 = (Ret t, s2) ->
  extract_data_from_image w (image args) t = inr E ->
  load_overrides w args
    (State (<[fresh (dom (heap s2)) := VStr <$> E]> (heap s2))
       (trace s2 ++
        [Print Step3; ExtractData (image args) t;
         Print (ExtractionCompleted (size E));
         Print (ExtractedFields (display_value <$> E))])) = (Ret ov, s4) ->
  trace s4 =
    ((trace s2 ++
      [Print Step3; ExtractData (image args) t;
       Print (ExtractionCompleted (size E));
       Print (ExtractedFields (display_value <$> E))]) ++ ev4)%list ->
  stage_calls ev4 = [] ->
  heap s4 !! fresh (dom (heap s2)) = Some (VStr <$> E) ->
  (ov = None /\ Ov = ∅ \/ exists o, ov = Some o /\ heap s4 !! o = Some Ov) ->
  exists r evs h rest,
    main w args s0 = (r, State h (trace s2 ++ evs)%list) /\
    stage_calls evs =
      ExtractData (image args) t ::
      FillForm (image args) t (Ov ∪ (VStr <$> E)) :: rest.
Proof.
  intros Hin Ht Hx Ho Htr Hc4 Hl Hov.
  pose proof (extract_data_returns w args t s2 E Hx) as Hext.
  set (l := fresh (dom (heap s2))) in *.
  set (ev3 := [Print Step3; ExtractData (image args) t;
               Print (ExtractionCompleted (size E));
               Print (ExtractedFields (display_value <$> E))]) in *.
  set (s3 := State (<[l := VStr <$> E]> (heap s2)) (trace s2 ++ ev3)) in *.
  destruct (main_from_merge w args s0 s1 s2 s3 s4 t l ov (VStr <$> E) Ov
              Hin Ht Hext Ho Hl Hov) as (r & evs & h & Hmain & Hshape).
  assert (Hcalls : exists rest,
    stage_calls evs = FillForm (image args) t (Ov ∪ (VStr <$> E)) :: rest).
  { destruct Hshape as [[-> _] | (a & _ & _ & -> & _)]; by eexists. }
  destruct Hcalls as [rest Hcalls].
  exists r, (ev3 ++ ev4 ++ evs)%list, h, rest. split.
  - rewrite Hmain, Htr. rewrite <- !app_assoc. reflexivity.
  - rewrite !stage_calls_app, Hc4, Hcalls. reflexivity.
Qed.

(** X15. With no data path, or an empty one, [fill_form] receives the
    extracted entries as they are: the call follows the call of the
    extraction, with the same template. *)
Theorem fill_gets_extracted_data w args s0 s1 s2 t E :
  validate_inputs w args (log s0 [Print Starting]) = (Ret tt, s1) ->
  load_template w args s1 = (Ret t, s2) ->
  extract_data_from_image w (image args) t = inr E ->
  data args = None \/ data args = Some "" ->
  exists r evs h rest,
    main w args s0 = (r, State h (trace s2 ++ evs)%list) /\
    stage_calls evs =
      ExtractData (image args) t ::
      FillForm (image args) t (VStr <$> E) :: rest.
Proof.
  intros Hin Ht Hx Hd.
  rewrite <- (left_id_L ∅ (∪) (VStr <$> E)).
  eapply (main_fills_with _ _ _ _ _ _ _ _ None ∅); try done.
  - by apply load_overrides_absent.
  - reflexivity.
  - done.
  - simpl. apply lookup_insert_eq.
  - by left.
Qed.

Lemma fill_gets_extracted_data_witness :
  validate_inputs Cases.fine (Sample.args "good.json")
    (log initial [Print Starting]) =
    (Ret tt, Cases.at_template Cases.fine (Sample.args "good.json")) /\
  load_template Cases.fine (Sample.args "good.json")
    (Cases.at_template Cases.fine (Sample.args "good.json")) =
    (Ret Sample.good_template,
     Cases.at_extraction Cases.fine (Sample.args "good.json")) /\
  exists r evs h rest,
    main Cases.fine (Sample.args "good.json") initial =
      (r, State h
            (trace (Cases.at_extraction Cases.fine (Sample.args "good.json"))
             ++ evs)%list) /\
    stage_calls evs =
      ExtractData "form.png" Sample.good_template ::
      FillForm "form.png" Sample.good_template (VStr <$> Cases.jane) :: rest.
Proof.
  assert (H1 : validate_inputs Cases.fine (Sample.args "good.json")
      (log initial [Print Starting]) =
      (Ret tt, Cases.at_template Cases.fine (Sample.args "good.json")))
    by (vm_compute; reflexivity).
  assert (H2 : load_template Cases.fine (Sample.args "good.json")
      (Cases.at_template Cases.fine (Sample.args "good.json")) =
      (Ret Sample.good_template,
       Cases.at_extraction Cases.fine (Sample.args "good.json")))
    by (vm_compute; reflexivity).
  split; [exact H1|]. split; [exact H2|].
  exact (fill_gets_extracted_data Cases.fine (Sample.args "good.json")
           initial _ _ Sample.good_template Cases.jane H1 H2 eq_refl
           (or_introl eq_refl)).
Defined.

(** X16. With a data file that holds a JSON object [Od], [fill_form]
    receives, under every key, the value of [Od] when [Od] has the key and
    the extracted string otherwise: the override wins in the run as it
    does in [merge_data]. *)
Theorem fill_gets_overridden_data w args s0 s1 s2 t E a p content Od :
  validate_inputs w args (log s0 [Print Starting]) = (Ret tt, s1) ->
  load_template w args s1 = (Ret t, s2) ->
  extract_data_from_image w (image args) t = inr E ->
  data args = Some (String a p) ->
  open_read w (String a p) = inr content ->
  json_load w content = inr (VDict Od) ->
  exists r evs h rest entries,
    main w args s0 = (r, State h (trace s2 ++ evs)%list) /\
    stage_calls evs =
      ExtractData (image args) t ::
      FillForm (image args) t entries :: rest /\
    forall k,
      entries !! k =
        match Od !! k with
        | Some v => Some v
        | None => VStr <$> E !! k
        end.
Proof.
  intros Hin Ht Hx Hd Hopen Hparse.
  set (ev3 := [Print Step3; ExtractData (image args) t;
               Print (ExtractionCompleted (size E));
               Print (ExtractedFields (display_value <$> E))]).
  set (s3 := State (<[fresh (dom (heap s2)) := VStr <$> E]> (heap s2))
               (trace s2 ++ ev3)).
  assert (Hl3 : heap s3 !! fresh (dom (heap s2)) = Some (VStr <$> E))
    by apply lookup_insert_eq.
  destruct (load_overrides_given w args s3 a p Hd) as (r & Hload & Hstep).
  rewrite (load_json_file_parsed _ _ _ _ _ Hopen Hparse), log_log in Hload.
  injection Hload as <-.
  destruct (main_fills_with w args s0 s1 s2 _ t E _ Od _
              Hin Ht Hx Hstep eq_refl) as (r & evs & h & rest & Hmain & Hcalls).
  - done.
  - simpl. rewrite lookup_insert_ne; [done|].
    intros Heq. by apply (fresh_ne_allocated _ _ _ Hl3).
  - right. eexists. split; [done|]. simpl. apply lookup_insert_eq.
  - exists r, evs, h, rest, (Od ∪ (VStr <$> E)).
    split; [done|]. split; [done|].
    intros k. rewrite lookup_union, lookup_fmap.
    destruct (Od !! k), (E !! k); done.
Qed.

Lemma fill_gets_overridden_data_witness :
  validate_inputs Cases.fine (Sample.args_with_data "good.json" "data.json")
    (log initial [Print Starting]) =
    (Ret tt,
     Cases.at_template Cases.fine
       (Sample.args_with_data "good.json" "data.json")) /\
  load_template Cases.fine (Sample.args_with_data "good.json" "data.json")
    (Cases.at_template Cases.fine
       (Sample.args_with_data "good.json" "data.json")) =
    (Ret Sample.good_template,
     Cases.at_extraction Cases.fine
       (Sample.args_with_data "good.json" "data.json")) /\
  open_read Cases.fine "data.json" = inr "DATA" /\
  json_load Cases.fine "DATA" = inr (VDict {[ "full_name" := VStr "J. Doe" ]}) /\
  exists r evs h rest entries,
    main Cases.fine (Sample.args_with_data "good.json" "data.json") initial =
      (r, State h
            (trace (Cases.at_extraction Cases.fine
                      (Sample.args_with_data "good.json" "data.json"))
             ++ evs)%list) /\
    stage_calls evs =
      ExtractData "form.png" Sample.good_template ::
      FillForm "form.png" Sample.good_template entries :: rest /\
    entries !! "full_name" = Some (VStr "J. Doe").
Proof.
  assert (H1 : validate_inputs Cases.fine
      (Sample.args_with_data "good.json" "data.json")
      (log initial [Print Starting]) =
      (Ret tt,
       Cases.at_template Cases.fine
         (Sample.args_with_data "good.json" "data.json")))
    by (vm_compute; reflexivity).
  assert (H2 : load_template Cases.fine
      (Sample.args_with_data "good.json" "data.json")
      (Cases.at_template Cases.fine
         (Sample.args_with_data "good.json" "data.json")) =
      (Ret Sample.good_template,
       Cases.at_extraction Cases.fine
         (Sample.args_with_data "good.json" "data.json")))
    by (vm_compute; reflexivity).
  assert (H3 : open_read Cases.fine "data.json" = inr "DATA") by reflexivity.
  assert (H4 : json_load Cases.fine "DATA" =
               inr (VDict {[ "full_name" := VStr "J. Doe" ]}))
    by reflexivity.
  split; [exact H1|]. split; [exact H2|]. split; [exact H3|].
  split; [exact H4|].
  destruct (fill_gets_overridden_data Cases.fine
              (Sample.args_with_data "good.json" "data.json") initial _ _
              Sample.good_template Cases.jane _ _ "DATA" _
              H1 H2 eq_refl eq_refl H3 H4)
    as (r & evs & h & rest & entries & Hmain & Hcalls & Hkeys).
  exists r, evs, h, rest, entries.
  split; [exact Hmain|]. split; [exact Hcalls|].
  rewrite Hkeys. vm_compute; reflexivity.
Defined.

(** ** The command line and the display *)

(** X17. An empty [--data] is no [--data]: the test [if args.data] is by
    truth value, so with the empty string the run is the one without the
    option; in particular the existence of the empty path is not tested
    and the loader is not called on it. *)
Theorem empty_data_path_is_no_data w args s :
  main w (set_data (Some "") args) s = main w (set_data None args) s.
Proof. reflexivity. Qed.




